(** * animeplayer: the external VLC remote-control bridge (main.py)

    A shallow embedding of [main.py]: the JSON command loop, the player
    controller ([start_vlc_rc], [process_command]) and the RC sender
    ([send_rc_command]), together with the properties of the command
    protocol that can be read off the code.

    The program is sequential glue around three kinds of effects:
    - two module globals, [vlc_process] and [current_file];
    - calls into the operating system (socket connect and send, process
      spawn, terminate, wait, poll, sleep), whose answers the program
      cannot predict;
    - two output streams, standard output (JSON results) and the
      diagnostic stream.

    Effects are modelled by a state-and-exception monad over a [world]
    that holds the globals, a call counter and the chronological log of
    every effect.  The answers of the operating system come from an
    arbitrary [host]: every theorem quantifies over it. *)

From Stdlib Require Import ZArith String Ascii List Bool Lia DecimalString.
From Stdlib Require Import Floats.PrimFloat.
Import ListNotations.

Local Open Scope list_scope.
Local Open Scope string_scope.

#[local] Set Warnings "-register-all".

(** ** Python values

    The values [json.loads] can return.  A [PDict] lists the items of
    the dictionary in insertion order, each key once. *)

Inductive pyval : Type :=
| PNone
| PBool (b : bool)
| PInt (z : Z)
| PFloat (f : float)
| PStr (s : string)
| PList (l : list pyval)
| PDict (d : list (string * pyval)).

(** [d.get(key)]: the value stored under [key], [None] when absent. *)
Fixpoint dict_get (d : list (string * pyval)) (key : string) : pyval :=
  match d with
  | [] => PNone
  | (k, v) :: rest => if String.eqb k key then v else dict_get rest key
  end.

(** [key in d]. *)
Fixpoint dict_has (d : list (string * pyval)) (key : string) : bool :=
  match d with
  | [] => false
  | (k, _) :: rest => String.eqb k key || dict_has rest key
  end.

(** [type(v).__name__]. *)
Definition type_name (v : pyval) : string :=
  match v with
  | PNone => "NoneType"
  | PBool _ => "bool"
  | PInt _ => "int"
  | PFloat _ => "float"
  | PStr _ => "str"
  | PList _ => "list"
  | PDict _ => "dict"
  end.

(** Truth value of an object, as tested by [if x] and [not x]. *)
Definition truthy (v : pyval) : bool :=
  match v with
  | PNone => false
  | PBool b => b
  | PInt z => negb (Z.eqb z 0)
  | PFloat f => negb (PrimFloat.eqb f zero)
  | PStr s => negb (String.eqb s "")
  | PList l => match l with [] => false | _ => true end
  | PDict d => match d with [] => false | _ => true end
  end.

(** [v == s] for a string literal [s]: only a [str] compares equal. *)
Definition eq_str (v : pyval) (s : string) : bool :=
  match v with
  | PStr t => String.eqb t s
  | _ => false
  end.

Definition str_of_Z (z : Z) : string := NilZero.string_of_int (Z.to_int z).

Fixpoint join (sep : string) (l : list string) : string :=
  match l with
  | [] => ""
  | [x] => x
  | x :: rest => x ++ sep ++ join sep rest
  end.

(** ** Exceptions

    An exception is its class, as far as the handlers of the program
    tell classes apart, and the text [str(e)] gives. *)

Inductive exn_class : Type :=
| ConnectionRefusedError
| FileNotFoundError
| JSONDecodeError
| AttributeError
| TypeError
| TimeoutExpired
| OtherException.

Record exn : Type := Exn { exn_cls : exn_class; exn_str : string }.

Definition is_class (c : exn_class) (e : exn) : bool :=
  match c, exn_cls e with
  | ConnectionRefusedError, ConnectionRefusedError => true
  | FileNotFoundError, FileNotFoundError => true
  | JSONDecodeError, JSONDecodeError => true
  | AttributeError, AttributeError => true
  | TypeError, TypeError => true
  | TimeoutExpired, TimeoutExpired => true
  | OtherException, OtherException => true
  | _, _ => false
  end.

Arguments is_class : simpl never.

Inductive outcome (A : Type) : Type :=
| Ok (a : A)
| Raise (e : exn).

Arguments Ok {A} a.
Arguments Raise {A} e.

(** ** The host: operating system and interpreter

    Each system call is answered by the host from the number of calls
    made so far and the arguments of the call; nothing else is assumed
    about it.  The two [repr] functions are the interpreter's
    formatting of floats and of quoted strings. *)

Definition handle : Type := nat.

Record host : Type := Host {
  repr_float : float -> string;
  repr_str : string -> string;
  (* body of the [try] in send_rc_command: connect, encode, sendall *)
  rc_socket : nat -> string -> outcome unit;
  (* subprocess.Popen(argv, ...) *)
  popen : nat -> list string -> outcome handle;
  (* Popen.wait(timeout) *)
  proc_wait : nat -> handle -> Z -> outcome unit;
  (* Popen.poll(): the return code, None while running *)
  proc_poll : nat -> handle -> option Z
}.

(** ** Effects *)

Inductive event : Type :=
| EvSleep (ms : Z)
| EvRc (payload : string) (r : outcome unit)
| EvPopen (argv : list string) (r : outcome handle)
| EvTerminate (h : handle)
| EvWait (h : handle) (timeout : Z) (r : outcome unit)
| EvPoll (h : handle) (r : option Z)
| EvStdout (obj : pyval)
| EvStderr (line : string).

Record world : Type := World {
  vlc_process : option handle;
  current_file : option string;
  clock : nat;
  log : list event
}.

Definition M (A : Type) : Type := world -> outcome A * world.

Definition ret {A} (a : A) : M A := fun w => (Ok a, w).

Definition bind {A B} (m : M A) (k : A -> M B) : M B :=
  fun w =>
    match m w with
    | (Ok a, w') => k a w'
    | (Raise e, w') => (Raise e, w')
    end.

Definition raise {A} (e : exn) : M A := fun w => (Raise e, w).

(** [try: body / except ... as e: handler e]; a handler that does not
    apply re-raises. *)
Definition try_except {A} (body : M A) (handler : exn -> M A) : M A :=
  fun w =>
    match body w with
    | (Ok a, w') => (Ok a, w')
    | (Raise e, w') => handler e w'
    end.

Declare Scope py_scope.
Delimit Scope py_scope with py.
Notation "x <- m ;; k" := (bind m (fun x => k))
  (at level 100, m at next level, right associativity) : py_scope.
Notation "m ;; k" := (bind m (fun _ => k))
  (at level 100, right associativity) : py_scope.
Local Open Scope py_scope.

Definition emit (ev : event) : M unit :=
  fun w => (Ok tt, World (vlc_process w) (current_file w) (clock w) (log w ++ [ev])%list).

Definition tick : M nat :=
  fun w => (Ok (clock w), World (vlc_process w) (current_file w) (S (clock w)) (log w)).

Definition get_vlc_process : M (option handle) := fun w => (Ok (vlc_process w), w).

Definition set_vlc_process (p : option handle) : M unit :=
  fun w => (Ok tt, World p (current_file w) (clock w) (log w)).

Definition set_current_file (f : option string) : M unit :=
  fun w => (Ok tt, World (vlc_process w) f (clock w) (log w)).

Definition of_outcome {A} (r : outcome A) : M A := fun w => (r, w).

(** [time.sleep]; durations in milliseconds. *)
Definition sleep (ms : Z) : M unit := emit (EvSleep ms).

(** [print(json.dumps(obj), flush=True)]: one line on standard output. *)
Definition print_json (obj : pyval) : M unit := emit (EvStdout obj).

(** [print(line, file=sys.stderr)]. *)
Definition print_err (line : string) : M unit := emit (EvStderr line).

(** The lines a log shows on each stream. *)
Fixpoint stdout_of (l : list event) : list pyval :=
  match l with
  | [] => []
  | EvStdout obj :: rest => obj :: stdout_of rest
  | _ :: rest => stdout_of rest
  end.


(** The payloads handed to the RC socket, delivered or not. *)
Fixpoint rc_of (l : list event) : list string :=
  match l with
  | [] => []
  | EvRc p _ :: rest => p :: rc_of rest
  | _ :: rest => rc_of rest
  end.

(** The argument vectors of the spawn attempts. *)
Fixpoint spawns_of (l : list event) : list (list string) :=
  match l with
  | [] => []
  | EvPopen argv _ :: rest => argv :: spawns_of rest
  | _ :: rest => spawns_of rest
  end.

(** The line feed that ends an RC command. *)
Definition LF : string := String "010" "".

Definition RC_HOST : string := "127.0.0.1".
Definition RC_PORT : Z := 44444.

Section Program.

Variable H : host.

(** ** Formatting: [repr] and [str], as used by f-strings *)

Fixpoint py_repr (v : pyval) : string :=
  match v with
  | PNone => "None"
  | PBool true => "True"
  | PBool false => "False"
  | PInt z => str_of_Z z
  | PFloat f => repr_float H f
  | PStr s => repr_str H s
  | PList l => "[" ++ join ", " (map py_repr l) ++ "]"
  | PDict d =>
      "{" ++ join ", "
        (map (fun kv => match kv with (k, x) => repr_str H k ++ ": " ++ py_repr x end) d)
      ++ "}"
  end.

Definition py_str (v : pyval) : string :=
  match v with
  | PStr s => s
  | _ => py_repr v
  end.

(** ** System calls *)

Definition sys_rc (payload : string) : M unit :=
  n <- tick ;;
  let r := rc_socket H n payload in
  emit (EvRc payload r) ;; of_outcome r.

Definition sys_popen (argv : list string) : M handle :=
  n <- tick ;;
  let r := popen H n argv in
  emit (EvPopen argv r) ;; of_outcome r.

Definition sys_terminate (h : handle) : M unit := emit (EvTerminate h).

(** [Popen.wait(timeout)]; the timeout in milliseconds. *)
Definition sys_wait (h : handle) (timeout : Z) : M unit :=
  n <- tick ;;
  let r := proc_wait H n h timeout in
  emit (EvWait h timeout r) ;; of_outcome r.

Definition sys_poll (h : handle) : M (option Z) :=
  n <- tick ;;
  let r := proc_poll H n h in
  emit (EvPoll h r) ;; ret r.

(** ** send_rc_command *)

Definition rc_refused_msg : string :=
  "ERROR: Could not connect to VLC RC interface at " ++ RC_HOST ++ ":"
  ++ str_of_Z RC_PORT ++ ". VLC may be closed.".

Definition send_rc_command (command : string) : M string :=
  try_except
    (sleep 50 ;;
     sys_rc (command ++ LF) ;;
     ret "OK")
    (fun e =>
       if is_class ConnectionRefusedError e then
         print_err rc_refused_msg ;;
         ret "ERROR: RC not connected"
       else
         print_err ("ERROR: RC communication failed: " ++ exn_str e) ;;
         ret ("ERROR: " ++ exn_str e)).

(** ** start_vlc_rc *)

Definition vlc_argv (file_path : string) : list string :=
  [ "vlc";
    "--intf=rc";
    "--rc-host=" ++ RC_HOST ++ ":" ++ str_of_Z RC_PORT;
    "--rc-quiet";
    "--fullscreen";
    file_path ].

Definition died_msg : string :=
  "VLC process died immediately. Check if 'vlc' command is in your system PATH or use its absolute path.".

Definition not_found_msg : string :=
  "VLC executable not found. Since 'vlc' is in PATH, try using the absolute path (e.g., 'C:\Program Files\VideoLAN\VLC\vlc.exe') instead of 'vlc'.".

Definition error_obj (msg : string) : pyval := PDict [("error", PStr msg)].

Definition playing_obj : pyval :=
  PDict [("status", PStr "playing");
         ("message", PStr "VLC launched externally with RC interface.")].

(** Step 1 of [start_vlc_rc]: tear down the process held in
    [vlc_process], if any.  The wait is bounded by two seconds and
    raises [TimeoutExpired] past them. *)
Definition teardown : M unit :=
  p <- get_vlc_process ;;
  match p with
  | Some h =>
      send_rc_command "stop" ;;
      sys_terminate h ;;
      sys_wait h 2000 ;;
      set_vlc_process None ;;
      sleep 500
  | None => ret tt
  end.

(** Steps 2 and 3: spawn, wait for the RC server, check liveness.
    [vlc_process] was just assigned the new handle, so the poll is on
    it; the handler reads the global again. *)
Definition launch (file_path : string) : M unit :=
  try_except
    (h <- sys_popen (vlc_argv file_path) ;;
     set_vlc_process (Some h) ;;
     sleep 3000 ;;
     rc <- sys_poll h ;;
     match rc with
     | Some _ => raise (Exn OtherException died_msg)
     | None => print_json playing_obj
     end)
    (fun e =>
       if is_class FileNotFoundError e then
         print_err ("ERROR: " ++ not_found_msg) ;;
         print_json (error_obj not_found_msg)
       else
         p <- get_vlc_process ;;
         match p with
         | Some h => sys_terminate h ;; set_vlc_process None
         | None => ret tt
         end ;;
         let error_msg := "Failed to start external VLC process: " ++ exn_str e in
         print_err ("ERROR: " ++ error_msg) ;;
         print_json (error_obj error_msg)).

Definition start_vlc_rc (file_path : string) : M unit :=
  teardown ;;
  set_current_file (Some file_path) ;;
  launch file_path.

(** ** process_command *)

(** [obj.get(key)]: only a dictionary has the method. *)
Definition py_get (obj : pyval) (key : string) : M pyval :=
  match obj with
  | PDict d => ret (dict_get d key)
  | _ => raise (Exn AttributeError
                  ("'" ++ type_name obj ++ "' object has no attribute 'get'"))
  end.

(** [Path(file_path)]: accepts a [str], raises [TypeError] on every
    other value a JSON document can hold (the wording of the message is
    the interpreter's). *)
Definition Path (file_path : pyval) : M string :=
  match file_path with
  | PStr s => ret s
  | _ => raise (Exn TypeError
                  ("expected str, bytes or os.PathLike object, not "
                   ++ type_name file_path))
  end.

Definition toggled_obj (response : string) : pyval :=
  PDict [("status", PStr "toggled"); ("rc_response", PStr response)].

Definition stopped_obj (response : string) : pyval :=
  PDict [("status", PStr "stopped"); ("rc_response", PStr response)].

Definition track_obj (status : string) (track_id : pyval) (response : string) : pyval :=
  PDict [("status", PStr status); ("id", track_id); ("rc_response", PStr response)].

Definition process_command (command_data : pyval) : M unit :=
  command <- py_get command_data "command" ;;
  if eq_str command "load" then
    file_path <- py_get command_data "file_path" ;;
    if negb (truthy file_path) then
      print_json (error_obj "Missing file path")
    else
      path_obj <- Path file_path ;;
      start_vlc_rc path_obj
  else if eq_str command "play_pause" then
    response <- send_rc_command "pause" ;;
    print_json (toggled_obj response)
  else if eq_str command "stop" then
    response <- send_rc_command "stop" ;;
    p <- get_vlc_process ;;
    match p with
    | Some h => sys_terminate h ;; set_vlc_process None
    | None => ret tt
    end ;;
    print_json (stopped_obj response)
  else if eq_str command "set_subtitle" then
    track_id <- py_get command_data "track_id" ;;
    response <- send_rc_command ("sub_track " ++ py_str track_id) ;;
    print_json (track_obj "subtitle_set" track_id response)
  else if eq_str command "set_audio" then
    track_id <- py_get command_data "track_id" ;;
    response <- send_rc_command ("audio_track " ++ py_str track_id) ;;
    print_json (track_obj "audio_set" track_id response)
  else
    print_json (error_obj "Unknown command").

(** ** The main loop *)

(** An input line, as [json.loads(line.strip())] sees it: a decoded
    value, or a line that is not JSON. *)
Inductive input_line : Type :=
| Decoded (v : pyval)
| Undecodable (msg : string).

Definition json_loads (ln : input_line) : M pyval :=
  match ln with
  | Decoded v => ret v
  | Undecodable msg => raise (Exn JSONDecodeError msg)
  end.

(** The body of [for line in sys.stdin]. *)
Definition main_step (ln : input_line) : M unit :=
  try_except
    (command_data <- json_loads ln ;;
     process_command command_data)
    (fun e =>
       if is_class JSONDecodeError e then
         print_err ("Error decoding JSON: " ++ exn_str e)
       else
         print_err ("Unhandled error in main loop: " ++ exn_str e)).

Fixpoint main_loop (lines : list input_line) : M unit :=
  match lines with
  | [] => ret tt
  | ln :: rest => main_step ln ;; main_loop rest
  end.

Definition main (lines : list input_line) : M unit :=
  print_err "External VLC RC control initialized successfully" ;;
  main_loop lines.

End Program.

(** The world at program start: both globals are [None]. *)
Definition initial_world : world := World None None 0 [].

(** ** Sample hosts and runs *)

Definition refused : exn :=
  Exn ConnectionRefusedError "[Errno 111] Connection refused".

Definition no_such_file : exn :=
  Exn FileNotFoundError "[Errno 2] No such file or directory: 'vlc'".

(** No player installed, nothing listening on the RC port. *)
Definition bare_host : host :=
  Host (fun _ => "0.0") (fun s => "'" ++ s ++ "'")
       (fun _ _ => Raise refused)
       (fun _ _ => Raise no_such_file)
       (fun _ _ _ => Ok tt)
       (fun _ _ => None).

(** A player that starts, stays alive and listens. *)
Definition good_host : host :=
  Host (fun _ => "0.0") (fun s => "'" ++ s ++ "'")
       (fun _ _ => Ok tt)
       (fun n _ => Ok (100 + n))
       (fun _ _ _ => Ok tt)
       (fun _ _ => None).

(** A player whose process ignores the termination request. *)
Definition stuck_host : host :=
  Host (fun _ => "0.0") (fun s => "'" ++ s ++ "'")
       (fun _ _ => Ok tt)
       (fun n _ => Ok (100 + n))
       (fun _ _ _ => Raise (Exn TimeoutExpired "Command 'vlc' timed out after 2 seconds"))
       (fun _ _ => None).

Definition cmd (name : string) : pyval := PDict [("command", PStr name)].

Definition load_cmd (file_path : pyval) : pyval :=
  PDict [("command", PStr "load"); ("file_path", file_path)].

Definition track_cmd (name : string) (track_id : pyval) : pyval :=
  PDict [("command", PStr name); ("track_id", track_id)].

(** ** Running a computation *)

Definition eval {A} (m : M A) (w : world) : outcome A := fst (m w).
Definition exec {A} (m : M A) (w : world) : world := snd (m w).

(** The globals of the session are the same in both worlds. *)
Definition same_session (w w' : world) : Prop :=
  vlc_process w' = vlc_process w /\ current_file w' = current_file w.

(** ** Closed forms of the RC sender

    What [send_rc_command] returns and logs, by the answer of the
    socket. *)

Definition rc_reply (r : outcome unit) : string :=
  match r with
  | Ok _ => "OK"
  | Raise e =>
      if is_class ConnectionRefusedError e then "ERROR: RC not connected"
      else "ERROR: " ++ exn_str e
  end.

Definition rc_events (command : string) (r : outcome unit) : list event :=
  [EvSleep 50; EvRc (command ++ LF) r] ++
  match r with
  | Ok _ => []
  | Raise e =>
      if is_class ConnectionRefusedError e then [EvStderr rc_refused_msg]
      else [EvStderr ("ERROR: RC communication failed: " ++ exn_str e)]
  end.

(** The termination request [stop] and the handlers issue for the
    process held in [vlc_process]. *)
Definition terminate_events (p : option handle) : list event :=
  match p with
  | Some h => [EvTerminate h]
  | None => []
  end.

Definition is_dict (v : pyval) : bool :=
  match v with
  | PDict _ => true
  | _ => false
  end.

(** The five command names [process_command] knows. *)
Definition known_command (c : pyval) : bool :=
  eq_str c "load" || eq_str c "play_pause" || eq_str c "stop"
  || eq_str c "set_subtitle" || eq_str c "set_audio".

(** ** Closed forms of [start_vlc_rc]

    What the two halves of [start_vlc_rc] log, by the answers of the
    host. *)

Definition teardown_events (H : host) (w : world) : list event :=
  match vlc_process w with
  | None => []
  | Some h =>
      let wr := proc_wait H (S (clock w)) h 2000 in
      rc_events "stop" (rc_socket H (clock w) ("stop" ++ LF))
      ++ [EvTerminate h; EvWait h 2000 wr]
      ++ match wr with
         | Ok _ => [EvSleep 500]
         | Raise _ => []
         end
  end%list.

Definition start_failed_msg (reason : string) : string :=
  "Failed to start external VLC process: " ++ reason.

Definition launch_events (H : host) (file_path : string) (w : world) : list event :=
  let argv := vlc_argv file_path in
  let pr := popen H (clock w) argv in
  (EvPopen argv pr ::
   match pr with
   | Ok h =>
       let rc := proc_poll H (S (clock w)) h in
       [EvSleep 3000; EvPoll h rc] ++
       match rc with
       | None => [EvStdout playing_obj]
       | Some _ =>
           [EvTerminate h;
            EvStderr ("ERROR: " ++ start_failed_msg died_msg);
            EvStdout (error_obj (start_failed_msg died_msg))]
       end
   | Raise e =>
       if is_class FileNotFoundError e then
         [EvStderr ("ERROR: " ++ not_found_msg);
          EvStdout (error_obj not_found_msg)]
       else
         terminate_events (vlc_process w) ++
         [EvStderr ("ERROR: " ++ start_failed_msg (exn_str e));
          EvStdout (error_obj (start_failed_msg (exn_str e)))]
   end)%list.

(** Some spawn in the log raised [FileNotFoundError]. *)
Definition spawn_not_found (l : list event) : bool :=
  existsb
    (fun ev =>
       match ev with
       | EvPopen _ (Raise e) => is_class FileNotFoundError e
       | _ => false
       end) l.


(** ** Handles in a log *)

(** The handles the spawns of a log returned. *)
Fixpoint spawned (l : list event) : list handle :=
  match l with
  | [] => []
  | EvPopen _ (Ok h) :: rest => h :: spawned rest
  | _ :: rest => spawned rest
  end.

(** The handles a log asked to terminate. *)
Fixpoint terminated (l : list event) : list handle :=
  match l with
  | [] => []
  | EvTerminate h :: rest => h :: terminated rest
  | _ :: rest => terminated rest
  end.

(** The tracked process, if any, is one the program spawned, and so is
    every process the program asked to terminate. *)
Definition own_processes (w : world) : Prop :=
  (forall h, vlc_process w = Some h -> In h (spawned (log w)))
  /\ (forall h, In h (terminated (log w)) -> In h (spawned (log w))).

(** A tracked process comes with a recorded media path. *)
Definition tracked_has_path (w : world) : bool :=
  match vlc_process w, current_file w with
  | Some _, None => false
  | _, _ => true
  end.

Definition is_decoded (ln : input_line) : bool :=
  match ln with
  | Decoded _ => true
  | Undecodable _ => false
  end.

(** The call counter once the teardown of [start_vlc_rc] is through:
    the teardown of a tracked process makes two calls, the socket and
    the wait. *)
Definition clock_after_teardown (w : world) : nat :=
  match vlc_process w with
  | Some _ => S (S (clock w))
  | None => clock w
  end.

(** The teardown of [start_vlc_rc] gets through: no process is tracked,
    or the wait for the tracked one returns in time. *)
Definition teardown_returns (H : host) (w : world) : bool :=
  match vlc_process w with
  | Some h =>
      match proc_wait H (S (clock w)) h 2000 with
      | Ok _ => true
      | Raise _ => false
      end
  | None => true
  end.

Definition is_str (v : pyval) : bool :=
  match v with
  | PStr _ => true
  | _ => false
  end.

(** The values [not x] holds for, among those a JSON document can
    hold. *)
Definition falsy_values (v : pyval) : Prop :=
  v = PNone \/ v = PBool false \/ v = PInt 0
  \/ (exists f, v = PFloat f /\ PrimFloat.eqb f zero = true)
  \/ v = PStr "" \/ v = PList [] \/ v = PDict [].

(** The diagnostic line and the reply of [send_rc_command] for a socket
    that raised [e]. *)
Definition rc_diag (e : exn) : string :=
  if is_class ConnectionRefusedError e
  then "ERROR: Could not connect to VLC RC interface at 127.0.0.1:44444. VLC may be closed."
  else "ERROR: RC communication failed: " ++ exn_str e.

(** The RC command each of the four playback commands sends; [None]
    for every other command value. *)
Definition rc_token (H : host) (d : list (string * pyval)) : option string :=
  let c := dict_get d "command" in
  if eq_str c "play_pause" then Some "pause"
  else if eq_str c "stop" then Some "stop"
  else if eq_str c "set_subtitle" then Some ("sub_track " ++ py_str H (dict_get d "track_id"))
  else if eq_str c "set_audio" then Some ("audio_track " ++ py_str H (dict_get d "track_id"))
  else None.

(** How one step may move the handles: the log grows; a process asked
    to terminate was tracked before the step or spawned during it; a
    process tracked after the step was tracked before, with the path
    untouched, or was spawned during it, with a path recorded; a process
    spawned during the step, or tracked before it, is tracked after it
    or was asked to terminate during it. *)
Definition handles_step (w w1 : world) : Prop :=
  exists evs,
    log w1 = (log w ++ evs)%list
    /\ (forall h, In h (terminated evs) -> vlc_process w = Some h \/ In h (spawned evs))
    /\ (forall h,
           vlc_process w1 = Some h ->
           (vlc_process w = Some h /\ current_file w1 = current_file w)
           \/ (In h (spawned evs) /\ current_file w1 <> None))
    /\ (forall h,
           In h (spawned evs) \/ vlc_process w = Some h ->
           In h (terminated evs) \/ vlc_process w1 = Some h).

(** No process is lost track of: every process the program spawned is
    the tracked one or has been asked to terminate. *)
Definition no_lost_process (w : world) : Prop :=
  forall h,
    In h (spawned (log w)) ->
    In h (terminated (log w)) \/ vlc_process w = Some h.

(** * Properties *)

(** ** Sample runs *)

(** A line that is not JSON, then [stop], with nothing listening: one
    result line, for the [stop]. *)
Example run_bad_json_then_stop :
  stdout_of (log (exec (main bare_host [Undecodable "Expecting value"; Decoded (cmd "stop")])
                       initial_world))
  = [PDict [("status", PStr "stopped"); ("rc_response", PStr "ERROR: RC not connected")]].
Proof. reflexivity. Qed.

(** A load on a working player, then a second load: the first process
    is stopped and terminated before the second is spawned. *)
Example run_load_twice :
  log (exec (main_loop good_host [Decoded (load_cmd (PStr "a.mkv"));
                                  Decoded (load_cmd (PStr "b.mkv"))])
            initial_world)
  = [EvPopen (vlc_argv "a.mkv") (Ok 100); EvSleep 3000; EvPoll 100 None;
     EvStdout playing_obj;
     EvSleep 50; EvRc ("stop" ++ LF) (Ok tt); EvTerminate 100;
     EvWait 100 2000 (Ok tt); EvSleep 500;
     EvPopen (vlc_argv "b.mkv") (Ok 104); EvSleep 3000; EvPoll 104 None;
     EvStdout playing_obj].
Proof. reflexivity. Qed.

(** The argument vector of the player. *)
Example run_vlc_argv :
  vlc_argv "a.mkv"
  = ["vlc"; "--intf=rc"; "--rc-host=127.0.0.1:44444"; "--rc-quiet"; "--fullscreen";
     "a.mkv"].
Proof. reflexivity. Qed.

(** [str] of a nested value, as an f-string writes it. *)
Example run_py_str :
  py_str good_host (PDict [("a", PList [PInt 1; PBool true; PNone; PStr "x"])])
  = "{'a': [1, True, None, 'x']}".
Proof. reflexivity. Qed.

(** ** Logs *)

Lemma stdout_of_app (l1 l2 : list event) :
  stdout_of (l1 ++ l2) = (stdout_of l1 ++ stdout_of l2)%list.
Proof.
  induction l1 as [|ev l1 IH]; [reflexivity|].
  destruct ev; simpl; rewrite IH; reflexivity.
Qed.


Lemma rc_of_app (l1 l2 : list event) :
  rc_of (l1 ++ l2) = (rc_of l1 ++ rc_of l2)%list.
Proof.
  induction l1 as [|ev l1 IH]; [reflexivity|].
  destruct ev; simpl; rewrite IH; reflexivity.
Qed.

Lemma spawns_of_app (l1 l2 : list event) :
  spawns_of (l1 ++ l2) = (spawns_of l1 ++ spawns_of l2)%list.
Proof.
  induction l1 as [|ev l1 IH]; [reflexivity|].
  destruct ev; simpl; rewrite IH; reflexivity.
Qed.

Lemma stdout_of_rc_events (c : string) (r : outcome unit) :
  stdout_of (rc_events c r) = [].
Proof.
  destruct r as [u|e]; [reflexivity|].
  unfold rc_events.
  destruct (is_class ConnectionRefusedError e); reflexivity.
Qed.

Lemma rc_of_rc_events (c : string) (r : outcome unit) :
  rc_of (rc_events c r) = [c ++ LF].
Proof.
  destruct r as [u|e]; [reflexivity|].
  unfold rc_events.
  destruct (is_class ConnectionRefusedError e); reflexivity.
Qed.

Lemma stdout_of_terminate_events (p : option handle) :
  stdout_of (terminate_events p) = [].
Proof. destruct p; reflexivity. Qed.

Lemma rc_of_terminate_events (p : option handle) :
  rc_of (terminate_events p) = [].
Proof. destruct p; reflexivity. Qed.

(** ** Dictionaries *)

Lemma dict_get_absent (d : list (string * pyval)) (key : string) :
  dict_has d key = false -> dict_get d key = PNone.
Proof.
  induction d as [|[k v] d IH]; simpl; [reflexivity|].
  destruct (String.eqb k key); simpl; [discriminate|exact IH].
Qed.

(** ** The RC sender *)


Lemma send_rc_command_run (H : host) (c : string) (w : world) :
  let r := rc_socket H (clock w) (c ++ LF) in
  send_rc_command H c w =
  (Ok (rc_reply r),
   World (vlc_process w) (current_file w) (S (clock w))
         (log w ++ rc_events c r)).
Proof.
  unfold send_rc_command, try_except, bind, sleep, sys_rc, tick, emit,
    of_outcome, ret, print_err, rc_events, rc_reply.
  cbn.
  destruct (rc_socket H (clock w) (c ++ LF)) as [[]|e]; cbn.
  - rewrite <- !app_assoc. reflexivity.
  - destruct (is_class ConnectionRefusedError e); cbn;
      rewrite <- !app_assoc; reflexivity.
Qed.

(** ** Dispatch, branch by branch *)

Lemma bind_run {A B} (m : M A) (k : A -> M B) (w : world) :
  bind m k w = match m w with (Ok a, w') => k a w' | (Raise e, w') => (Raise e, w') end.
Proof. reflexivity. Qed.


Ltac prim :=
  cbv beta iota zeta delta
    [bind ret raise try_except emit tick get_vlc_process set_vlc_process
     set_current_file of_outcome sleep print_json print_err sys_terminate
     sys_wait sys_popen sys_poll
     vlc_process current_file clock log fst snd eval exec].

Ltac branch Hc :=
  unfold process_command, py_get; rewrite bind_run; unfold ret at 1;
  rewrite Hc; cbn [eq_str String.eqb Ascii.eqb Bool.eqb].

Lemma process_command_stop_run (H : host) (d : list (string * pyval)) (w : world) :
  dict_get d "command" = PStr "stop" ->
  let r := rc_socket H (clock w) ("stop" ++ LF) in
  process_command H (PDict d) w =
  (Ok tt,
   World None (current_file w) (S (clock w))
         (log w ++ rc_events "stop" r ++ terminate_events (vlc_process w)
          ++ [EvStdout (stopped_obj (rc_reply r))])).
Proof.
  intros Hc r. branch Hc.
  rewrite bind_run, send_rc_command_run. fold r.
  destruct w as [p f n l]. prim. 
  destruct p; prim; cbn [terminate_events]; rewrite <- ?app_assoc; reflexivity.
Qed.

Lemma process_command_play_pause_run (H : host) (d : list (string * pyval)) (w : world) :
  dict_get d "command" = PStr "play_pause" ->
  let r := rc_socket H (clock w) ("pause" ++ LF) in
  process_command H (PDict d) w =
  (Ok tt,
   World (vlc_process w) (current_file w) (S (clock w))
         (log w ++ rc_events "pause" r ++ [EvStdout (toggled_obj (rc_reply r))])).
Proof.
  intros Hc r. branch Hc.
  rewrite bind_run, send_rc_command_run. fold r.
  prim. rewrite <- ?app_assoc; reflexivity.
Qed.

Lemma process_command_set_subtitle_run (H : host) (d : list (string * pyval)) (w : world) :
  dict_get d "command" = PStr "set_subtitle" ->
  let t := dict_get d "track_id" in
  let c := "sub_track " ++ py_str H t in
  let r := rc_socket H (clock w) (c ++ LF) in
  process_command H (PDict d) w =
  (Ok tt,
   World (vlc_process w) (current_file w) (S (clock w))
         (log w ++ rc_events c r
          ++ [EvStdout (track_obj "subtitle_set" t (rc_reply r))])).
Proof.
  intros Hc t c r. branch Hc.
  rewrite bind_run. unfold ret at 1. rewrite bind_run, send_rc_command_run. fold t c r.
  prim. rewrite <- ?app_assoc; reflexivity.
Qed.

Lemma process_command_set_audio_run (H : host) (d : list (string * pyval)) (w : world) :
  dict_get d "command" = PStr "set_audio" ->
  let t := dict_get d "track_id" in
  let c := "audio_track " ++ py_str H t in
  let r := rc_socket H (clock w) (c ++ LF) in
  process_command H (PDict d) w =
  (Ok tt,
   World (vlc_process w) (current_file w) (S (clock w))
         (log w ++ rc_events c r
          ++ [EvStdout (track_obj "audio_set" t (rc_reply r))])).
Proof.
  intros Hc t c r. branch Hc.
  rewrite bind_run. unfold ret at 1. rewrite bind_run, send_rc_command_run. fold t c r.
  prim. rewrite <- ?app_assoc; reflexivity.
Qed.

Lemma known_command_false (c : pyval) :
  known_command c = false ->
  eq_str c "load" = false /\ eq_str c "play_pause" = false /\ eq_str c "stop" = false
  /\ eq_str c "set_subtitle" = false /\ eq_str c "set_audio" = false.
Proof.
  unfold known_command. intros Hk.
  repeat (apply orb_false_elim in Hk; destruct Hk as [Hk ?]).
  repeat split; assumption.
Qed.

Lemma process_command_unknown_run (H : host) (d : list (string * pyval)) (w : world) :
  known_command (dict_get d "command") = false ->
  process_command H (PDict d) w =
  (Ok tt,
   World (vlc_process w) (current_file w) (clock w)
         (log w ++ [EvStdout (error_obj "Unknown command")])).
Proof.
  intros Hk. apply known_command_false in Hk.
  destruct Hk as (H1 & H2 & H3 & H4 & H5).
  unfold process_command, py_get. rewrite bind_run. unfold ret at 1.
  rewrite H1, H2, H3, H4, H5. reflexivity.
Qed.

Lemma process_command_load_missing_run (H : host) (d : list (string * pyval)) (w : world) :
  dict_get d "command" = PStr "load" ->
  truthy (dict_get d "file_path") = false ->
  process_command H (PDict d) w =
  (Ok tt,
   World (vlc_process w) (current_file w) (clock w)
         (log w ++ [EvStdout (error_obj "Missing file path")])).
Proof.
  intros Hc Hf. branch Hc.
  rewrite bind_run. unfold ret at 1. rewrite Hf. reflexivity.
Qed.

Lemma process_command_load_run (H : host) (d : list (string * pyval)) (w : world) :
  dict_get d "command" = PStr "load" ->
  truthy (dict_get d "file_path") = true ->
  process_command H (PDict d) w =
  bind (Path (dict_get d "file_path")) (start_vlc_rc H) w.
Proof.
  intros Hc Hf. branch Hc.
  rewrite bind_run. unfold ret at 1. rewrite Hf. reflexivity.
Qed.

Lemma process_command_non_dict (H : host) (v : pyval) (w : world) :
  is_dict v = false ->
  process_command H v w =
  (Raise (Exn AttributeError ("'" ++ type_name v ++ "' object has no attribute 'get'")), w).
Proof.
  intros Hv. destruct v; try discriminate Hv; reflexivity.
Qed.

(** ** The two halves of start_vlc_rc *)

Lemma teardown_run (H : host) (w : world) :
  teardown H w =
  match vlc_process w with
  | None => (Ok tt, w)
  | Some h =>
      match proc_wait H (S (clock w)) h 2000 with
      | Ok _ =>
          (Ok tt,
           World None (current_file w) (S (S (clock w)))
                 (log w ++ teardown_events H w))
      | Raise e =>
          (Raise e,
           World (Some h) (current_file w) (S (S (clock w)))
                 (log w ++ teardown_events H w))
      end
  end.
Proof.
  unfold teardown. rewrite bind_run. unfold get_vlc_process at 1.
  unfold teardown_events.
  destruct w as [[h|] f n l]; [|reflexivity].
  cbn [vlc_process clock log current_file].
  rewrite bind_run, send_rc_command_run.
  prim.
  destruct (proc_wait H (S n) h 2000) as [[]|e];
    rewrite <- ?app_assoc; reflexivity.
Qed.

Lemma launch_run (H : host) (file_path : string) (w : world) :
  launch H file_path w =
  (Ok tt,
   World
     match popen H (clock w) (vlc_argv file_path) with
     | Ok h =>
         match proc_poll H (S (clock w)) h with
         | None => Some h
         | Some _ => None
         end
     | Raise e =>
         if is_class FileNotFoundError e then vlc_process w else None
     end
     (current_file w)
     match popen H (clock w) (vlc_argv file_path) with
     | Ok _ => S (S (clock w))
     | Raise _ => S (clock w)
     end
     (log w ++ launch_events H file_path w)).
Proof.
  unfold launch, launch_events. destruct w as [p f n l]. prim.
  destruct (popen H n (vlc_argv file_path)) as [h|e].
  - destruct (proc_poll H (S n) h) as [rc|]; prim.
    + change (is_class FileNotFoundError {| exn_cls := OtherException; exn_str := died_msg |}) with false.
      cbv iota. rewrite <- ?app_assoc. reflexivity.
    + rewrite <- ?app_assoc. reflexivity.
  - destruct (is_class FileNotFoundError e).
    + rewrite <- ?app_assoc. reflexivity.
    + destruct p as [h|]; prim; cbn [terminate_events]; rewrite <- ?app_assoc; reflexivity.
Qed.

(** ** The RC reply in the results *)



(** ** Validation errors *)

(** C5: a [load] whose object has no [file_path] key returns normally,
    logs the single result [{"error": "Missing file path"}] and nothing
    else, makes no system call (so spawns nothing), and leaves both
    globals as they were. *)
Theorem load_without_file_path (H : host) (d : list (string * pyval)) (w : world) :
  dict_get d "command" = PStr "load" ->
  dict_has d "file_path" = false ->
  let w' := exec (process_command H (PDict d)) w in
  eval (process_command H (PDict d)) w = Ok tt
  /\ log w' = (log w ++ [EvStdout (PDict [("error", PStr "Missing file path")])])%list
  /\ spawns_of (log w') = spawns_of (log w)
  /\ clock w' = clock w
  /\ same_session w w'.
Proof.
  intros Hc Hf w'. subst w'. unfold eval, exec, same_session.
  rewrite (process_command_load_missing_run H d w Hc)
    by (rewrite (dict_get_absent d "file_path" Hf); reflexivity).
  cbn [fst snd log clock vlc_process current_file].
  repeat split.
  rewrite spawns_of_app. cbn. apply app_nil_r.
Qed.

Lemma load_without_file_path_witness :
  let c := cmd "load" in
  let w := World (Some 7) (Some "a.mkv") 3 [] in
  let w' := exec (process_command good_host c) w in
  eval (process_command good_host c) w = Ok tt
  /\ log w' = (log w ++ [EvStdout (PDict [("error", PStr "Missing file path")])])%list
  /\ spawns_of (log w') = spawns_of (log w)
  /\ clock w' = clock w
  /\ same_session w w'.
Proof.
  apply (load_without_file_path good_host [("command", PStr "load")]
           (World (Some 7) (Some "a.mkv") 3 []));
    reflexivity.
Defined.

(** C6: an object whose [command] is none of the five known names, or
    is absent, returns normally, logs the single result
    [{"error": "Unknown command"}] and nothing else, and leaves both
    globals as they were. *)
Theorem unknown_command (H : host) (d : list (string * pyval)) (w : world) :
  dict_has d "command" = false \/ known_command (dict_get d "command") = false ->
  let w' := exec (process_command H (PDict d)) w in
  eval (process_command H (PDict d)) w = Ok tt
  /\ log w' = (log w ++ [EvStdout (PDict [("error", PStr "Unknown command")])])%list
  /\ clock w' = clock w
  /\ same_session w w'.
Proof.
  intros Hk w'. subst w'.
  assert (Hk' : known_command (dict_get d "command") = false).
  { destruct Hk as [Ha|Hk]; [|exact Hk].
    rewrite (dict_get_absent d "command" Ha). reflexivity. }
  unfold eval, exec, same_session.
  rewrite (process_command_unknown_run H d w Hk').
  cbn [fst snd log clock vlc_process current_file].
  repeat split.
Qed.

Lemma unknown_command_witness :
  (let w := World (Some 7) (Some "a.mkv") 3 [] in
   let w' := exec (process_command good_host (cmd "seek")) w in
   eval (process_command good_host (cmd "seek")) w = Ok tt
   /\ log w' = (log w ++ [EvStdout (PDict [("error", PStr "Unknown command")])])%list
   /\ clock w' = clock w
   /\ same_session w w')
  /\
  (let w := initial_world in
   let w' := exec (process_command good_host (PDict [])) w in
   eval (process_command good_host (PDict [])) w = Ok tt
   /\ log w' = (log w ++ [EvStdout (PDict [("error", PStr "Unknown command")])])%list
   /\ clock w' = clock w
   /\ same_session w w').
Proof.
  split.
  - apply (unknown_command good_host [("command", PStr "seek")]
             (World (Some 7) (Some "a.mkv") 3 [])).
    right. reflexivity.
  - apply (unknown_command good_host [] initial_world).
    left. reflexivity.
Defined.

(** ** Track selection *)

Lemma string_app_assoc (a b c : string) : ((a ++ b) ++ c = a ++ b ++ c)%string.
Proof.
  induction a as [|ch a IH]; simpl; [reflexivity|].
  rewrite IH. reflexivity.
Qed.

Lemma track_command_run (H : host) (d : list (string * pyval)) (w : world)
      (name prefix status : string) :
  In (name, prefix, status)
     [("set_subtitle", "sub_track ", "subtitle_set");
      ("set_audio", "audio_track ", "audio_set")] ->
  dict_get d "command" = PStr name ->
  let t := dict_get d "track_id" in
  let c := prefix ++ py_str H t in
  let r := rc_socket H (clock w) (c ++ LF) in
  process_command H (PDict d) w =
  (Ok tt,
   World (vlc_process w) (current_file w) (S (clock w))
         (log w ++ rc_events c r ++ [EvStdout (track_obj status t (rc_reply r))])).
Proof.
  intros Hin Hc. cbn [In] in Hin.
  destruct Hin as [Hin|[Hin|[]]]; injection Hin as <- <- <-.
  - exact (process_command_set_subtitle_run H d w Hc).
  - exact (process_command_set_audio_run H d w Hc).
Qed.



(** C10: [set_subtitle] and [set_audio] on an object without a
    [track_id] key raise nothing: the RC line carries the text [None]
    in place of the id, and the single result has the success shape with
    a null [id]; it has no [error] key. *)
Theorem track_command_without_id (H : host) (d : list (string * pyval)) (w : world)
        (name prefix status : string) :
  In (name, prefix, status)
     [("set_subtitle", "sub_track ", "subtitle_set");
      ("set_audio", "audio_track ", "audio_set")] ->
  dict_get d "command" = PStr name ->
  dict_has d "track_id" = false ->
  let w' := exec (process_command H (PDict d)) w in
  exists response fields,
    eval (process_command H (PDict d)) w = Ok tt
    /\ rc_of (log w') = (rc_of (log w) ++ [(prefix ++ "None" ++ LF)%string])%list
    /\ fields = [("status", PStr status); ("id", PNone);
                 ("rc_response", PStr response)]
    /\ stdout_of (log w') = (stdout_of (log w) ++ [PDict fields])%list
    /\ dict_has fields "error" = false.
Proof.
  intros Hin Hc Ht w'. subst w'. unfold eval, exec.
  rewrite (track_command_run H d w name prefix status Hin Hc).
  rewrite (dict_get_absent d "track_id" Ht).
  cbn [fst snd log py_str py_repr].
  eexists. eexists. split; [reflexivity|]. split; [|split; [reflexivity|split]].
  - rewrite !rc_of_app, rc_of_rc_events. cbn [rc_of].
    rewrite app_nil_r, string_app_assoc. reflexivity.
  - rewrite !stdout_of_app, stdout_of_rc_events. reflexivity.
  - reflexivity.
Qed.

Lemma track_command_without_id_witness :
  let w' := exec (process_command bare_host (cmd "set_subtitle")) initial_world in
  exists response fields,
    eval (process_command bare_host (cmd "set_subtitle")) initial_world = Ok tt
    /\ rc_of (log w') = ["sub_track None" ++ LF]
    /\ fields = [("status", PStr "subtitle_set"); ("id", PNone);
                 ("rc_response", PStr response)]
    /\ stdout_of (log w') = [PDict fields]
    /\ dict_has fields "error" = false.
Proof.
  apply (track_command_without_id bare_host [("command", PStr "set_subtitle")]
           initial_world "set_subtitle" "sub_track " "subtitle_set").
  - simpl. left. reflexivity.
  - reflexivity.
  - reflexivity.
Defined.

(** ** The loop body *)

Lemma main_step_decoded (H : host) (v : pyval) (w : world) :
  main_step H (Decoded v) w =
  match process_command H v w with
  | (Ok a, w1) => (Ok a, w1)
  | (Raise e, w1) =>
      (Ok tt,
       World (vlc_process w1) (current_file w1) (clock w1)
             (log w1 ++
              [EvStderr (if is_class JSONDecodeError e
                         then "Error decoding JSON: " ++ exn_str e
                         else "Unhandled error in main loop: " ++ exn_str e)]))
  end.
Proof.
  unfold main_step, json_loads, try_except. rewrite bind_run. unfold ret at 1.
  destruct (process_command H v w) as [[a|e] w1]; [reflexivity|].
  destruct (is_class JSONDecodeError e); reflexivity.
Qed.

Lemma main_step_returns (H : host) (ln : input_line) (w : world) :
  eval (main_step H ln) w = Ok tt.
Proof.
  unfold eval. destruct ln as [v|msg].
  - rewrite main_step_decoded.
    destruct (process_command H v w) as [[[]|e] w1]; reflexivity.
  - reflexivity.
Qed.

Lemma main_loop_cons (H : host) (ln : input_line) (rest : list input_line) (w : world) :
  main_loop H (ln :: rest) w = main_loop H rest (exec (main_step H ln) w).
Proof.
  cbn [main_loop]. rewrite bind_run. unfold exec.
  pose proof (main_step_returns H ln w) as Hr. unfold eval in Hr.
  destruct (main_step H ln w) as [r w1]. cbn [fst snd] in *.
  rewrite Hr. reflexivity.
Qed.

(** ** Stop *)

(** C2 (amended): from every world, a [stop] command hands the RC
    socket the line [stop], asks the tracked process, if there is one,
    to terminate, sets [vlc_process] to [None], and logs the single
    result [{"status": "stopped", "rc_response": ...}] whatever the
    socket answered; [current_file] is left as it was. *)
Theorem stop_clears_handle (H : host) (d : list (string * pyval)) (w : world) :
  dict_get d "command" = PStr "stop" ->
  let r := rc_socket H (clock w) ("stop" ++ LF) in
  let w' := exec (process_command H (PDict d)) w in
  exists response,
    eval (process_command H (PDict d)) w = Ok tt
    /\ log w'
       = (log w ++ rc_events "stop" r ++ terminate_events (vlc_process w)
          ++ [EvStdout (PDict [("status", PStr "stopped");
                               ("rc_response", PStr response)])])%list
    /\ rc_of (log w') = (rc_of (log w) ++ [("stop" ++ LF)%string])%list
    /\ vlc_process w' = None
    /\ current_file w' = current_file w.
Proof.
  intros Hc r w'. subst w'. unfold eval, exec.
  rewrite (process_command_stop_run H d w Hc).
  cbn [fst snd log vlc_process current_file]. fold r.
  eexists. split; [reflexivity|]. split; [reflexivity|]. split; [|split; reflexivity].
  rewrite !rc_of_app, rc_of_rc_events, rc_of_terminate_events. reflexivity.
Qed.

Lemma stop_clears_handle_witness :
  let w := World (Some 7) (Some "a.mkv") 0 [] in
  let w' := exec (process_command bare_host (cmd "stop")) w in
  exists response,
    eval (process_command bare_host (cmd "stop")) w = Ok tt
    /\ log w'
       = (rc_events "stop" (Raise refused) ++ [EvTerminate 7]
          ++ [EvStdout (PDict [("status", PStr "stopped");
                               ("rc_response", PStr response)])])%list
    /\ rc_of (log w') = [("stop" ++ LF)%string]
    /\ vlc_process w' = None
    /\ current_file w' = Some "a.mkv".
Proof.
  apply (stop_clears_handle bare_host [("command", PStr "stop")]
           (World (Some 7) (Some "a.mkv") 0 [])).
  reflexivity.
Defined.

(** C2, as stated, fails: after [stop] the loaded media path is still
    the one of the last load, not null. *)
Lemma stop_keeps_media_path :
  let w := World (Some 7) (Some "a.mkv") 0 [] in
  let w' := exec (process_command good_host (cmd "stop")) w in
  eval (process_command good_host (cmd "stop")) w = Ok tt
  /\ vlc_process w' = None
  /\ current_file w' = Some "a.mkv".
Proof. repeat split. Qed.

(** C8: two [stop] commands in a row each return normally and each log
    one result of status [stopped]; [vlc_process] is [None] after the
    first and after the second. *)
Theorem stop_twice (H : host) (d1 d2 : list (string * pyval)) (w : world) :
  dict_get d1 "command" = PStr "stop" ->
  dict_get d2 "command" = PStr "stop" ->
  let w1 := exec (process_command H (PDict d1)) w in
  let w2 := exec (process_command H (PDict d2)) w1 in
  exists r1 r2,
    eval (process_command H (PDict d1)) w = Ok tt
    /\ eval (process_command H (PDict d2)) w1 = Ok tt
    /\ stdout_of (log w1)
       = (stdout_of (log w)
          ++ [PDict [("status", PStr "stopped"); ("rc_response", PStr r1)]])%list
    /\ stdout_of (log w2)
       = (stdout_of (log w1)
          ++ [PDict [("status", PStr "stopped"); ("rc_response", PStr r2)]])%list
    /\ vlc_process w1 = None
    /\ vlc_process w2 = None
    /\ exec (main_loop H [Decoded (PDict d1); Decoded (PDict d2)]) w = w2.
Proof.
  intros Hc1 Hc2 w1 w2.
  assert (Hstep : forall d w0,
             dict_get d "command" = PStr "stop" ->
             exec (main_step H (Decoded (PDict d))) w0
             = exec (process_command H (PDict d)) w0).
  { intros d w0 Hc. unfold exec. rewrite main_step_decoded.
    rewrite (process_command_stop_run H d w0 Hc). reflexivity. }
  assert (Hloop : exec (main_loop H [Decoded (PDict d1); Decoded (PDict d2)]) w = w2).
  { change (snd (main_loop H [Decoded (PDict d1); Decoded (PDict d2)] w) = w2).
    rewrite !main_loop_cons, (Hstep d1 w Hc1), (Hstep d2 _ Hc2). reflexivity. }
  subst w2 w1. unfold eval, exec in *.
  rewrite (process_command_stop_run H d1 w Hc1) in *. cbn [fst snd] in *.
  rewrite (process_command_stop_run H d2 _ Hc2) in *.
  cbn [fst snd log vlc_process clock current_file] in *.
  eexists. eexists. repeat split.
  - rewrite !stdout_of_app, stdout_of_rc_events, stdout_of_terminate_events.
    reflexivity.
  - rewrite !stdout_of_app, !stdout_of_rc_events, !stdout_of_terminate_events.
    cbn [stdout_of terminate_events app]. rewrite <- !app_assoc. reflexivity.
  - exact Hloop.
Qed.

Lemma stop_twice_witness :
  let w := World (Some 7) (Some "a.mkv") 0 [] in
  let w1 := exec (process_command good_host (cmd "stop")) w in
  let w2 := exec (process_command good_host (cmd "stop")) w1 in
  exists r1 r2,
    eval (process_command good_host (cmd "stop")) w = Ok tt
    /\ eval (process_command good_host (cmd "stop")) w1 = Ok tt
    /\ stdout_of (log w1)
       = [PDict [("status", PStr "stopped"); ("rc_response", PStr r1)]]
    /\ stdout_of (log w2)
       = (stdout_of (log w1)
          ++ [PDict [("status", PStr "stopped"); ("rc_response", PStr r2)]])%list
    /\ vlc_process w1 = None
    /\ vlc_process w2 = None
    /\ exec (main_loop good_host [Decoded (cmd "stop"); Decoded (cmd "stop")]) w = w2.
Proof.
  apply (stop_twice good_host [("command", PStr "stop")] [("command", PStr "stop")]
           (World (Some 7) (Some "a.mkv") 0 []));
    reflexivity.
Defined.

(** ** Lines that are JSON but not objects *)

(** C9: when the line decodes to a value that is not an object,
    dispatch raises [AttributeError]; the loop body catches it, logs one
    diagnostic line and no result, changes neither global, makes no
    system call, and the loop goes on with the next line. *)
Theorem non_object_line (H : host) (v : pyval) (w : world) (rest : list input_line) :
  is_dict v = false ->
  let w' := exec (main_step H (Decoded v)) w in
  (exists e,
      process_command H v w = (Raise e, w)
      /\ exn_cls e = AttributeError
      /\ log w' = (log w ++ [EvStderr ("Unhandled error in main loop: " ++ exn_str e)])%list)
  /\ eval (main_step H (Decoded v)) w = Ok tt
  /\ stdout_of (log w') = stdout_of (log w)
  /\ clock w' = clock w
  /\ same_session w w'
  /\ main_loop H (Decoded v :: rest) w = main_loop H rest w'.
Proof.
  intros Hv w'. subst w'.
  split; [|split; [apply main_step_returns|]].
  - eexists. split; [apply (process_command_non_dict H v w Hv)|].
    split; [reflexivity|].
    unfold exec. rewrite main_step_decoded, (process_command_non_dict H v w Hv).
    reflexivity.
  - rewrite main_loop_cons. unfold exec, same_session.
    rewrite main_step_decoded, (process_command_non_dict H v w Hv).
    cbn [fst snd log clock vlc_process current_file].
    repeat split.
    rewrite stdout_of_app. cbn. apply app_nil_r.
Qed.

Lemma non_object_line_witness :
  let v := PList [PStr "stop"] in
  let w := World (Some 7) (Some "a.mkv") 4 [] in
  let w' := exec (main_step good_host (Decoded v)) w in
  (exists e,
      process_command good_host v w = (Raise e, w)
      /\ exn_cls e = AttributeError
      /\ log w' = (log w ++ [EvStderr ("Unhandled error in main loop: " ++ exn_str e)])%list)
  /\ eval (main_step good_host (Decoded v)) w = Ok tt
  /\ stdout_of (log w') = stdout_of (log w)
  /\ clock w' = clock w
  /\ same_session w w'
  /\ main_loop good_host [Decoded v; Decoded (cmd "stop")] w
     = main_loop good_host [Decoded (cmd "stop")] w'.
Proof.
  apply (non_object_line good_host (PList [PStr "stop"])
           (World (Some 7) (Some "a.mkv") 4 []) [Decoded (cmd "stop")]).
  reflexivity.
Defined.

(** ** Load *)

Lemma stdout_of_teardown_events (H : host) (w : world) :
  stdout_of (teardown_events H w) = [].
Proof.
  unfold teardown_events. destruct (vlc_process w) as [h|]; [|reflexivity].
  cbv zeta. rewrite !stdout_of_app, stdout_of_rc_events.
  destruct (proc_wait H (S (clock w)) h 2000); reflexivity.
Qed.

Lemma stdout_of_launch_events (H : host) (file_path : string) (w : world) :
  exists obj, stdout_of (launch_events H file_path w) = [obj].
Proof.
  unfold launch_events. cbv zeta.
  destruct (popen H (clock w) (vlc_argv file_path)) as [h|e].
  - destruct (proc_poll H (S (clock w)) h); eexists; reflexivity.
  - destruct (is_class FileNotFoundError e); [eexists; reflexivity|].
    eexists. cbn [stdout_of]. rewrite stdout_of_app, stdout_of_terminate_events.
    reflexivity.
Qed.

Lemma spawn_not_found_app (l1 l2 : list event) :
  spawn_not_found (l1 ++ l2) = spawn_not_found l1 || spawn_not_found l2.
Proof. apply existsb_app. Qed.

Lemma spawn_not_found_rc_events (c : string) (r : outcome unit) :
  spawn_not_found (rc_events c r) = false.
Proof.
  destruct r as [u|e]; [reflexivity|].
  unfold rc_events.
  destruct (is_class ConnectionRefusedError e); reflexivity.
Qed.

Lemma spawn_not_found_teardown_events (H : host) (w : world) :
  spawn_not_found (teardown_events H w) = false.
Proof.
  unfold teardown_events. destruct (vlc_process w) as [h|]; [|reflexivity].
  cbv zeta. rewrite !spawn_not_found_app, spawn_not_found_rc_events.
  destruct (proc_wait H (S (clock w)) h 2000); reflexivity.
Qed.

Lemma spawn_not_found_terminate_events (p : option handle) :
  spawn_not_found (terminate_events p) = false.
Proof. destruct p; reflexivity. Qed.

(** A launch logs a spawn that raised [FileNotFoundError] only when the
    host answered so, and then logs the not-found result. *)
Lemma spawn_not_found_launch_events (H : host) (file_path : string) (w : world) :
  spawn_not_found (launch_events H file_path w) = true ->
  exists e,
    popen H (clock w) (vlc_argv file_path) = Raise e
    /\ is_class FileNotFoundError e = true
    /\ stdout_of (launch_events H file_path w) = [error_obj not_found_msg].
Proof.
  unfold launch_events. cbv zeta.
  destruct (popen H (clock w) (vlc_argv file_path)) as [h|e].
  - destruct (proc_poll H (S (clock w)) h); discriminate.
  - cbn [spawn_not_found existsb].
    destruct (is_class FileNotFoundError e) eqn:He.
    + intros _. exists e. repeat split. exact He.
    + cbn [orb]. fold (spawn_not_found
                         (terminate_events (vlc_process w) ++
                          [EvStderr ("ERROR: " ++ start_failed_msg (exn_str e));
                           EvStdout (error_obj (start_failed_msg (exn_str e)))])).
      rewrite spawn_not_found_app, spawn_not_found_terminate_events.
      discriminate.
Qed.

Lemma start_vlc_rc_run (H : host) (file_path : string) (w : world) :
  start_vlc_rc H file_path w =
  match teardown H w with
  | (Ok _, w1) =>
      launch H file_path
             (World (vlc_process w1) (Some file_path) (clock w1) (log w1))
  | (Raise e, w1) => (Raise e, w1)
  end.
Proof. reflexivity. Qed.

Lemma eq_str_true (v : pyval) (s : string) : eq_str v s = true -> v = PStr s.
Proof.
  destruct v; try discriminate. cbn [eq_str]. intros Hs.
  apply String.eqb_eq in Hs. rewrite Hs. reflexivity.
Qed.

Lemma app_same_head {A} (l evs : list A) : l = (l ++ evs)%list -> evs = [].
Proof.
  intros Hl. apply (app_inv_head l). rewrite app_nil_r. symmetry. exact Hl.
Qed.

(** A world the teardown ran in: the log grew by [teardown_events]
    without a result line; on a normal return no process is tracked. *)
Lemma teardown_effect (H : host) (w : world) :
  let '(r, w1) := teardown H w in
  log w1 = (log w ++ teardown_events H w)%list
  /\ current_file w1 = current_file w
  /\ match r with
     | Ok _ => vlc_process w1 = None
     | Raise _ => vlc_process w1 = vlc_process w
     end.
Proof.
  rewrite teardown_run. unfold teardown_events.
  destruct w as [[h|] f n l]; cbn [vlc_process clock log current_file].
  - destruct (proc_wait H (S n) h 2000) as [[]|e]; repeat split.
  - rewrite app_nil_r. repeat split.
Qed.

(** Dispatch writes one result when it returns, none when it raises. *)
Lemma process_command_stdout (H : host) (v : pyval) (w : world) :
  let '(r, w1) := process_command H v w in
  match r with
  | Ok _ => exists obj, stdout_of (log w1) = (stdout_of (log w) ++ [obj])%list
  | Raise _ => stdout_of (log w1) = stdout_of (log w)
  end.
Proof.
  destruct v as [| | | | |l|d];
    try (rewrite process_command_non_dict by reflexivity; reflexivity).
  destruct (known_command (dict_get d "command")) eqn:Hk.
  2:{ rewrite (process_command_unknown_run H d w Hk). cbn [log].
      eexists. rewrite stdout_of_app. reflexivity. }
  unfold known_command in Hk.
  repeat (apply orb_true_iff in Hk; destruct Hk as [Hk|Hk]);
    apply eq_str_true in Hk.
  - destruct (truthy (dict_get d "file_path")) eqn:Hf.
    2:{ rewrite (process_command_load_missing_run H d w Hk Hf). cbn [log].
        eexists. rewrite stdout_of_app. reflexivity. }
    rewrite (process_command_load_run H d w Hk Hf), bind_run.
    destruct (dict_get d "file_path") as [| | | |p| |]; try reflexivity.
    cbn [Path]. unfold ret at 1. rewrite start_vlc_rc_run.
    pose proof (teardown_effect H w) as Ht.
    destruct (teardown H w) as [[[]|e] w1]; destruct Ht as (Hl & _ & _).
    + rewrite launch_run. cbn [log].
      destruct (stdout_of_launch_events H p
                  (World (vlc_process w1) (Some p) (clock w1) (log w1))) as [obj Ho].
      exists obj.
      rewrite stdout_of_app, Ho, Hl, stdout_of_app, stdout_of_teardown_events.
      rewrite app_nil_r. reflexivity.
    + rewrite Hl, stdout_of_app, stdout_of_teardown_events. apply app_nil_r.
  - rewrite (process_command_play_pause_run H d w Hk). cbn [log].
    eexists. rewrite !stdout_of_app, stdout_of_rc_events. reflexivity.
  - rewrite (process_command_stop_run H d w Hk). cbn [log].
    eexists.
    rewrite !stdout_of_app, stdout_of_rc_events, stdout_of_terminate_events.
    reflexivity.
  - rewrite (process_command_set_subtitle_run H d w Hk). cbn [log].
    eexists. rewrite !stdout_of_app, stdout_of_rc_events. reflexivity.
  - rewrite (process_command_set_audio_run H d w Hk). cbn [log].
    eexists. rewrite !stdout_of_app, stdout_of_rc_events. reflexivity.
Qed.



(** C3 (amended): when a [load] reaches the spawn and the spawn raises
    [FileNotFoundError], dispatch returns normally, the single result is
    the structured error [{"error": ...}] for the missing executable,
    and afterwards [vlc_process] is [None]; [current_file] holds the
    path of the failed load. *)
Theorem load_missing_executable (H : host) (d : list (string * pyval))
        (w w' : world) (r : outcome unit) (evs : list event) :
  dict_get d "command" = PStr "load" ->
  process_command H (PDict d) w = (r, w') ->
  log w' = (log w ++ evs)%list ->
  spawn_not_found evs = true ->
  r = Ok tt
  /\ stdout_of evs = [PDict [("error", PStr not_found_msg)]]
  /\ vlc_process w' = None
  /\ exists p, dict_get d "file_path" = PStr p /\ current_file w' = Some p.
Proof.
  intros Hc Hrun Hlog Hnf.
  destruct (truthy (dict_get d "file_path")) eqn:Hf.
  2:{ rewrite (process_command_load_missing_run H d w Hc Hf) in Hrun.
      injection Hrun as <- <-. cbn [log] in Hlog.
      apply app_inv_head in Hlog. subst evs. discriminate Hnf. }
  rewrite (process_command_load_run H d w Hc Hf), bind_run in Hrun.
  destruct (dict_get d "file_path") as [| | | |p| |];
    try (injection Hrun as <- <-; apply app_same_head in Hlog; subst evs;
         discriminate Hnf).
  cbn [Path] in Hrun. unfold ret at 1 in Hrun. rewrite start_vlc_rc_run in Hrun.
  pose proof (teardown_effect H w) as Ht.
  destruct (teardown H w) as [[[]|e] w1]; destruct Ht as (Hl & Hcf & Hp).
  - rewrite launch_run in Hrun. cbn [clock vlc_process log current_file] in Hrun.
    injection Hrun as <- <-. cbn [log vlc_process current_file] in *.
    rewrite Hl, <- app_assoc in Hlog. apply app_inv_head in Hlog. subst evs.
    rewrite spawn_not_found_app, spawn_not_found_teardown_events in Hnf.
    cbn [orb] in Hnf.
    destruct (spawn_not_found_launch_events H p _ Hnf) as (e & Hpo & He & Hout).
    cbn [clock] in Hpo. rewrite Hpo, He.
    split; [reflexivity|]. split; [|split].
    + rewrite stdout_of_app, stdout_of_teardown_events. exact Hout.
    + exact Hp.
    + exists p. split; reflexivity.
  - injection Hrun as <- <-.
    rewrite Hl in Hlog. apply app_inv_head in Hlog. subst evs.
    rewrite spawn_not_found_teardown_events in Hnf. discriminate Hnf.
Qed.

Lemma load_missing_executable_witness :
  let c := load_cmd (PStr "new.mkv") in
  let w := World (Some 7) (Some "old.mkv") 0 [] in
  let w' := exec (process_command bare_host c) w in
  eval (process_command bare_host c) w = Ok tt
  /\ stdout_of (log w') = [PDict [("error", PStr not_found_msg)]]
  /\ vlc_process w' = None
  /\ exists p, PStr "new.mkv" = PStr p /\ current_file w' = Some p.
Proof.
  intros c w w'.
  apply (load_missing_executable bare_host
           [("command", PStr "load"); ("file_path", PStr "new.mkv")]
           w w' (eval (process_command bare_host c) w) (log w'));
    vm_compute; reflexivity.
Defined.

(** C3, as stated, fails: after a [load] whose spawn raised
    [FileNotFoundError] the loaded media path is the requested path, not
    null. *)
Lemma failed_load_keeps_media_path :
  let w' := exec (process_command bare_host (load_cmd (PStr "a.mkv"))) initial_world in
  spawn_not_found (log w') = true
  /\ stdout_of (log w') = [PDict [("error", PStr not_found_msg)]]
  /\ vlc_process w' = None
  /\ current_file w' = Some "a.mkv".
Proof. repeat split. Qed.

(** ** One result per completed dispatch *)




(** ** More on load *)

(** A [load] with a non-empty string path: the teardown, then the
    launch in the world the teardown left, with the path recorded. *)
Lemma process_command_load_str_run (H : host) (d : list (string * pyval))
      (p : string) (w : world) :
  dict_get d "command" = PStr "load" ->
  dict_get d "file_path" = PStr p ->
  p <> "" ->
  process_command H (PDict d) w =
  if teardown_returns H w then
    launch H p (World None (Some p) (clock_after_teardown w)
                      (log w ++ teardown_events H w))
  else
    (match vlc_process w with
     | Some h =>
         match proc_wait H (S (clock w)) h 2000 with
         | Raise e => Raise e
         | Ok _ => Ok tt
         end
     | None => Ok tt
     end,
     World (vlc_process w) (current_file w) (clock_after_teardown w)
           (log w ++ teardown_events H w)).
Proof.
  intros Hc Hp Hne.
  assert (Hf : truthy (dict_get d "file_path") = true).
  { rewrite Hp. cbn [truthy]. destruct (String.eqb_spec p ""); [contradiction|reflexivity]. }
  rewrite (process_command_load_run H d w Hc Hf), bind_run, Hp.
  cbn [Path]. unfold ret at 1. rewrite start_vlc_rc_run, teardown_run.
  unfold teardown_returns, clock_after_teardown.
  destruct w as [[h|] f n l]; cbn [vlc_process clock log current_file].
  - destruct (proc_wait H (S n) h 2000) as [[]|e]; reflexivity.
  - unfold teardown_events. cbn [vlc_process]. rewrite app_nil_r. reflexivity.
Qed.

Lemma spawns_of_rc_events (c : string) (r : outcome unit) :
  spawns_of (rc_events c r) = [].
Proof.
  destruct r as [u|e]; [reflexivity|].
  unfold rc_events.
  destruct (is_class ConnectionRefusedError e); reflexivity.
Qed.


Lemma spawns_of_teardown_events (H : host) (w : world) :
  spawns_of (teardown_events H w) = [].
Proof.
  unfold teardown_events. destruct (vlc_process w) as [h|]; [|reflexivity].
  cbv zeta. rewrite !spawns_of_app, spawns_of_rc_events.
  destruct (proc_wait H (S (clock w)) h 2000); reflexivity.
Qed.

(** X1: a [load] with a non-empty string path, on a host where the
    teardown gets through, the spawn returns a handle and the process is
    still running at the poll: the old process, if any, was sent [stop],
    terminated and waited for before the spawn; the player is spawned
    once, with the path as last argument; the single result is
    [{"status": "playing", ...}]; afterwards the new handle is tracked
    and the path recorded. *)
Theorem load_starts_player (H : host) (d : list (string * pyval)) (p : string)
        (w : world) (h : handle) :
  dict_get d "command" = PStr "load" ->
  dict_get d "file_path" = PStr p ->
  p <> "" ->
  teardown_returns H w = true ->
  popen H (clock_after_teardown w) (vlc_argv p) = Ok h ->
  proc_poll H (S (clock_after_teardown w)) h = None ->
  let w' := exec (process_command H (PDict d)) w in
  eval (process_command H (PDict d)) w = Ok tt
  /\ log w'
     = (log w ++ teardown_events H w
        ++ [EvPopen (vlc_argv p) (Ok h); EvSleep 3000; EvPoll h None;
            EvStdout (PDict [("status", PStr "playing");
                             ("message", PStr "VLC launched externally with RC interface.")])])%list
  /\ (forall h0,
         vlc_process w = Some h0 ->
         teardown_events H w
         = (rc_events "stop" (rc_socket H (clock w) ("stop" ++ LF))
            ++ [EvTerminate h0; EvWait h0 2000 (Ok tt); EvSleep 500])%list)
  /\ (vlc_process w = None -> teardown_events H w = [])
  /\ spawns_of (log w') = (spawns_of (log w) ++ [vlc_argv p])%list
  /\ last (vlc_argv p) "" = p
  /\ vlc_process w' = Some h
  /\ current_file w' = Some p.
Proof.
  intros Hc Hp Hne Ht Hpo Hpl w'. subst w'. unfold eval, exec.
  rewrite (process_command_load_str_run H d p w Hc Hp Hne), Ht, launch_run.
  cbn [fst snd log clock vlc_process current_file].
  rewrite Hpo, Hpl. unfold launch_events. cbn [clock]. rewrite Hpo, Hpl.
  rewrite <- !app_assoc.
  split; [reflexivity|]. split; [reflexivity|]. split; [|split; [|split]].
  - intros h0 Hh. unfold teardown_events, teardown_returns in *. rewrite Hh in *.
    destruct (proc_wait H (S (clock w)) h0 2000) as [[]|e]; [reflexivity|discriminate].
  - intros Hn. unfold teardown_events. rewrite Hn. reflexivity.
  - rewrite !spawns_of_app, spawns_of_teardown_events. reflexivity.
  - repeat split.
Qed.

Lemma load_starts_player_witness :
  let w := World (Some 100) (Some "a.mkv") 2 [] in
  let w' := exec (process_command good_host (load_cmd (PStr "b.mkv"))) w in
  eval (process_command good_host (load_cmd (PStr "b.mkv"))) w = Ok tt
  /\ log w'
     = (log w ++ teardown_events good_host w
        ++ [EvPopen (vlc_argv "b.mkv") (Ok 104); EvSleep 3000; EvPoll 104 None;
            EvStdout (PDict [("status", PStr "playing");
                             ("message", PStr "VLC launched externally with RC interface.")])])%list
  /\ (forall h0,
         vlc_process w = Some h0 ->
         teardown_events good_host w
         = (rc_events "stop" (rc_socket good_host (clock w) ("stop" ++ LF))
            ++ [EvTerminate h0; EvWait h0 2000 (Ok tt); EvSleep 500])%list)
  /\ (vlc_process w = None -> teardown_events good_host w = [])
  /\ spawns_of (log w') = (spawns_of (log w) ++ [vlc_argv "b.mkv"])%list
  /\ last (vlc_argv "b.mkv") "" = "b.mkv"
  /\ vlc_process w' = Some 104
  /\ current_file w' = Some "b.mkv".
Proof.
  apply (load_starts_player good_host
           [("command", PStr "load"); ("file_path", PStr "b.mkv")] "b.mkv"
           (World (Some 100) (Some "a.mkv") 2 []) 104);
    try reflexivity.
  discriminate.
Defined.

(** X2: a [load] whose player is spawned but has already exited at the
    liveness check: the new process is asked to terminate, the single
    result is the structured error for a player that died immediately,
    and afterwards no process is tracked while the path stays
    recorded. *)
Theorem load_player_died (H : host) (d : list (string * pyval)) (p : string)
        (w : world) (h : handle) (code : Z) :
  dict_get d "command" = PStr "load" ->
  dict_get d "file_path" = PStr p ->
  p <> "" ->
  teardown_returns H w = true ->
  popen H (clock_after_teardown w) (vlc_argv p) = Ok h ->
  proc_poll H (S (clock_after_teardown w)) h = Some code ->
  let w' := exec (process_command H (PDict d)) w in
  let msg := "Failed to start external VLC process: " ++ died_msg in
  eval (process_command H (PDict d)) w = Ok tt
  /\ log w'
     = (log w ++ teardown_events H w
        ++ [EvPopen (vlc_argv p) (Ok h); EvSleep 3000; EvPoll h (Some code);
            EvTerminate h; EvStderr ("ERROR: " ++ msg);
            EvStdout (PDict [("error", PStr msg)])])%list
  /\ stdout_of (log w') = (stdout_of (log w) ++ [PDict [("error", PStr msg)]])%list
  /\ vlc_process w' = None
  /\ current_file w' = Some p.
Proof.
  intros Hc Hp Hne Ht Hpo Hpl w' msg. subst w' msg. unfold eval, exec.
  rewrite (process_command_load_str_run H d p w Hc Hp Hne), Ht, launch_run.
  cbn [fst snd log clock vlc_process current_file].
  rewrite Hpo, Hpl. unfold launch_events. cbn [clock]. rewrite Hpo, Hpl.
  rewrite <- !app_assoc.
  split; [reflexivity|]. split; [reflexivity|]. split; [|split; reflexivity].
  rewrite !stdout_of_app, stdout_of_teardown_events. reflexivity.
Qed.

Lemma load_player_died_witness :
  let H := Host (fun _ => "0.0") (fun s => s) (fun _ _ => Ok tt)
                (fun n _ => Ok (100 + n)) (fun _ _ _ => Ok tt)
                (fun _ _ => Some 1%Z) in
  let w' := exec (process_command H (load_cmd (PStr "a.mkv"))) initial_world in
  let msg := "Failed to start external VLC process: " ++ died_msg in
  eval (process_command H (load_cmd (PStr "a.mkv"))) initial_world = Ok tt
  /\ log w'
     = [EvPopen (vlc_argv "a.mkv") (Ok 100); EvSleep 3000; EvPoll 100 (Some 1%Z);
        EvTerminate 100; EvStderr ("ERROR: " ++ msg);
        EvStdout (PDict [("error", PStr msg)])]
  /\ stdout_of (log w') = [PDict [("error", PStr msg)]]
  /\ vlc_process w' = None
  /\ current_file w' = Some "a.mkv".
Proof.
  apply (load_player_died
           (Host (fun _ => "0.0") (fun s => s) (fun _ _ => Ok tt)
                 (fun n _ => Ok (100 + n)) (fun _ _ _ => Ok tt)
                 (fun _ _ => Some 1%Z))
           [("command", PStr "load"); ("file_path", PStr "a.mkv")] "a.mkv"
           initial_world 100 1%Z);
    try reflexivity.
  discriminate.
Defined.

(** X3: a [load] whose spawn raises anything but [FileNotFoundError]:
    nothing is terminated after the spawn, the single result is
    [{"error": "Failed to start external VLC process: <text of the
    exception>"}], and afterwards no process is tracked while the path
    stays recorded. *)
Theorem load_spawn_fails (H : host) (d : list (string * pyval)) (p : string)
        (w : world) (e : exn) :
  dict_get d "command" = PStr "load" ->
  dict_get d "file_path" = PStr p ->
  p <> "" ->
  teardown_returns H w = true ->
  popen H (clock_after_teardown w) (vlc_argv p) = Raise e ->
  is_class FileNotFoundError e = false ->
  let w' := exec (process_command H (PDict d)) w in
  let msg := "Failed to start external VLC process: " ++ exn_str e in
  eval (process_command H (PDict d)) w = Ok tt
  /\ log w'
     = (log w ++ teardown_events H w
        ++ [EvPopen (vlc_argv p) (Raise e); EvStderr ("ERROR: " ++ msg);
            EvStdout (PDict [("error", PStr msg)])])%list
  /\ stdout_of (log w') = (stdout_of (log w) ++ [PDict [("error", PStr msg)]])%list
  /\ vlc_process w' = None
  /\ current_file w' = Some p.
Proof.
  intros Hc Hp Hne Ht Hpo He w' msg. subst w' msg. unfold eval, exec.
  rewrite (process_command_load_str_run H d p w Hc Hp Hne), Ht, launch_run.
  cbn [fst snd log clock vlc_process current_file].
  rewrite Hpo, He. unfold launch_events. cbn [clock vlc_process]. rewrite Hpo, He.
  cbn [terminate_events]. rewrite <- !app_assoc.
  split; [reflexivity|]. split; [reflexivity|]. split; [|split; reflexivity].
  rewrite !stdout_of_app, stdout_of_teardown_events. reflexivity.
Qed.

Lemma load_spawn_fails_witness :
  let denied := Exn OtherException "[Errno 13] Permission denied: 'vlc'" in
  let H := Host (fun _ => "0.0") (fun s => s) (fun _ _ => Ok tt)
                (fun _ _ => Raise denied) (fun _ _ _ => Ok tt) (fun _ _ => None) in
  let w := World (Some 7) (Some "old.mkv") 0 [] in
  let w' := exec (process_command H (load_cmd (PStr "a.mkv"))) w in
  let msg := "Failed to start external VLC process: [Errno 13] Permission denied: 'vlc'" in
  eval (process_command H (load_cmd (PStr "a.mkv"))) w = Ok tt
  /\ log w'
     = (log w ++ teardown_events H w
        ++ [EvPopen (vlc_argv "a.mkv") (Raise denied); EvStderr ("ERROR: " ++ msg);
            EvStdout (PDict [("error", PStr msg)])])%list
  /\ stdout_of (log w') = (stdout_of (log w) ++ [PDict [("error", PStr msg)]])%list
  /\ vlc_process w' = None
  /\ current_file w' = Some "a.mkv".
Proof.
  apply (load_spawn_fails
           (Host (fun _ => "0.0") (fun s => s) (fun _ _ => Ok tt)
                 (fun _ _ => Raise (Exn OtherException "[Errno 13] Permission denied: 'vlc'"))
                 (fun _ _ _ => Ok tt) (fun _ _ => None))
           [("command", PStr "load"); ("file_path", PStr "a.mkv")] "a.mkv"
           (World (Some 7) (Some "old.mkv") 0 [])
           (Exn OtherException "[Errno 13] Permission denied: 'vlc'"));
    try reflexivity.
  discriminate.
Defined.

(** X4: a [load] while a process is tracked whose wait raises (the two
    seconds ran out): dispatch raises that exception after the [stop]
    line and the termination request; nothing is spawned, no result
    line is written, the old handle stays tracked and the recorded path
    is the old one. *)
Theorem load_teardown_times_out (H : host) (d : list (string * pyval)) (p : string)
        (w : world) (h0 : handle) (e : exn) :
  dict_get d "command" = PStr "load" ->
  dict_get d "file_path" = PStr p ->
  p <> "" ->
  vlc_process w = Some h0 ->
  proc_wait H (S (clock w)) h0 2000 = Raise e ->
  let w' := exec (process_command H (PDict d)) w in
  eval (process_command H (PDict d)) w = Raise e
  /\ log w'
     = (log w ++ rc_events "stop" (rc_socket H (clock w) ("stop" ++ LF))
        ++ [EvTerminate h0; EvWait h0 2000 (Raise e)])%list
  /\ spawns_of (log w') = spawns_of (log w)
  /\ stdout_of (log w') = stdout_of (log w)
  /\ vlc_process w' = Some h0
  /\ current_file w' = current_file w.
Proof.
  intros Hc Hp Hne Hh Hw w'. subst w'. unfold eval, exec.
  rewrite (process_command_load_str_run H d p w Hc Hp Hne).
  pose proof (spawns_of_teardown_events H w) as Hsp.
  pose proof (stdout_of_teardown_events H w) as Hso.
  unfold teardown_returns, teardown_events in *. rewrite Hh, Hw in *.
  cbn [fst snd log vlc_process current_file]. cbv zeta in *.
  rewrite app_nil_r in *.
  split; [reflexivity|]. split; [reflexivity|]. split; [|split; [|split; reflexivity]].
  - rewrite spawns_of_app, Hsp. apply app_nil_r.
  - rewrite stdout_of_app, Hso. apply app_nil_r.
Qed.

Lemma load_teardown_times_out_witness :
  let late := Exn TimeoutExpired "Command 'vlc' timed out after 2 seconds" in
  let w := World (Some 100) (Some "a.mkv") 2 [] in
  let w' := exec (process_command stuck_host (load_cmd (PStr "b.mkv"))) w in
  eval (process_command stuck_host (load_cmd (PStr "b.mkv"))) w = Raise late
  /\ log w'
     = (log w ++ rc_events "stop" (rc_socket stuck_host (clock w) ("stop" ++ LF))
        ++ [EvTerminate 100; EvWait 100 2000 (Raise late)])%list
  /\ spawns_of (log w') = spawns_of (log w)
  /\ stdout_of (log w') = stdout_of (log w)
  /\ vlc_process w' = Some 100
  /\ current_file w' = current_file w.
Proof.
  apply (load_teardown_times_out stuck_host
           [("command", PStr "load"); ("file_path", PStr "b.mkv")] "b.mkv"
           (World (Some 100) (Some "a.mkv") 2 []) 100
           (Exn TimeoutExpired "Command 'vlc' timed out after 2 seconds"));
    try reflexivity.
  discriminate.
Defined.

(** ** Falsy and ill-typed paths *)

Lemma truthy_false_iff (v : pyval) : truthy v = false <-> falsy_values v.
Proof.
  unfold falsy_values. split.
  - destruct v as [|b|z|f|s|l|d]; cbn [truthy]; intros Hv.
    + left. reflexivity.
    + right. left. rewrite Hv. reflexivity.
    + right. right. left. apply negb_false_iff, Z.eqb_eq in Hv. rewrite Hv. reflexivity.
    + right. right. right. left. exists f. split; [reflexivity|].
      apply negb_false_iff in Hv. exact Hv.
    + right. right. right. right. left.
      apply negb_false_iff, String.eqb_eq in Hv. rewrite Hv. reflexivity.
    + right. right. right. right. right. left. destruct l; [reflexivity|discriminate].
    + right. right. right. right. right. right. destruct d; [reflexivity|discriminate].
  - intros [->|[->|[->|[(f & -> & Hf)|[->|[->| ->]]]]]]; try reflexivity.
    cbn [truthy]. rewrite Hf. reflexivity.
Qed.

(** X5: a [load] whose [file_path] is present but falsy (null, false,
    0, 0.0, the empty string, an empty array or object) is answered
    like one without the key: the single result
    [{"error": "Missing file path"}], no system call, no spawn, both
    globals as they were. *)
Theorem load_falsy_file_path (H : host) (d : list (string * pyval)) (w : world) :
  dict_get d "command" = PStr "load" ->
  falsy_values (dict_get d "file_path") ->
  let w' := exec (process_command H (PDict d)) w in
  eval (process_command H (PDict d)) w = Ok tt
  /\ log w' = (log w ++ [EvStdout (PDict [("error", PStr "Missing file path")])])%list
  /\ spawns_of (log w') = spawns_of (log w)
  /\ clock w' = clock w
  /\ same_session w w'.
Proof.
  intros Hc Hf w'. subst w'. apply truthy_false_iff in Hf.
  unfold eval, exec, same_session.
  rewrite (process_command_load_missing_run H d w Hc Hf).
  cbn [fst snd log clock vlc_process current_file].
  repeat split.
  rewrite spawns_of_app. cbn. apply app_nil_r.
Qed.

Lemma load_falsy_file_path_witness :
  let w := World (Some 7) (Some "a.mkv") 3 [] in
  let w' := exec (process_command good_host (load_cmd (PStr ""))) w in
  eval (process_command good_host (load_cmd (PStr ""))) w = Ok tt
  /\ log w' = (log w ++ [EvStdout (PDict [("error", PStr "Missing file path")])])%list
  /\ spawns_of (log w') = spawns_of (log w)
  /\ clock w' = clock w
  /\ same_session w w'.
Proof.
  apply (load_falsy_file_path good_host
           [("command", PStr "load"); ("file_path", PStr "")]
           (World (Some 7) (Some "a.mkv") 3 [])).
  - reflexivity.
  - unfold falsy_values. simpl. right. right. right. right. left. reflexivity.
Defined.

(** X6: a [load] whose [file_path] is truthy but not a string (a
    non-zero number, true, a non-empty array or object) raises
    [TypeError] before any effect: the world is untouched, and the loop
    body logs one diagnostic line and no result. *)
Theorem load_non_string_path (H : host) (d : list (string * pyval)) (w : world) :
  dict_get d "command" = PStr "load" ->
  truthy (dict_get d "file_path") = true ->
  is_str (dict_get d "file_path") = false ->
  exists e,
    process_command H (PDict d) w = (Raise e, w)
    /\ exn_cls e = TypeError
    /\ main_step H (Decoded (PDict d)) w
       = (Ok tt,
          World (vlc_process w) (current_file w) (clock w)
                (log w ++ [EvStderr ("Unhandled error in main loop: " ++ exn_str e)])).
Proof.
  intros Hc Hf Hs.
  assert (Hrun : process_command H (PDict d) w
                 = (Raise (Exn TypeError
                             ("expected str, bytes or os.PathLike object, not "
                              ++ type_name (dict_get d "file_path"))), w)).
  { rewrite (process_command_load_run H d w Hc Hf), bind_run.
    destruct (dict_get d "file_path"); try discriminate Hs; reflexivity. }
  eexists. split; [exact Hrun|]. split; [reflexivity|].
  rewrite main_step_decoded, Hrun. reflexivity.
Qed.

Lemma load_non_string_path_witness :
  let w := World (Some 7) (Some "a.mkv") 3 [] in
  exists e,
    process_command good_host (load_cmd (PInt 5)) w = (Raise e, w)
    /\ exn_cls e = TypeError
    /\ main_step good_host (Decoded (load_cmd (PInt 5))) w
       = (Ok tt,
          World (vlc_process w) (current_file w) (clock w)
                (log w ++ [EvStderr ("Unhandled error in main loop: " ++ exn_str e)])).
Proof.
  apply (load_non_string_path good_host
           [("command", PStr "load"); ("file_path", PInt 5)]
           (World (Some 7) (Some "a.mkv") 3 []));
    reflexivity.
Defined.

(** ** The RC sender and the playback commands *)

(** X7: [send_rc_command] never raises, whatever the socket does: it
    sleeps 50 ms, makes one attempt with the command and a line feed,
    logs at most one diagnostic line (none on success), writes no
    result line and leaves both globals alone. *)
Theorem send_rc_command_contained (H : host) (c : string) (w : world) :
  let r := rc_socket H (clock w) (c ++ LF) in
  let w' := exec (send_rc_command H c) w in
  exists s diag,
    eval (send_rc_command H c) w = Ok s
    /\ log w' = (log w ++ [EvSleep 50; EvRc (c ++ LF) r] ++ map EvStderr diag)%list
    /\ diag = match r with
              | Ok _ => []
              | Raise e => [rc_diag e]
              end
    /\ s = match r with
           | Ok _ => "OK"
           | Raise e =>
               if is_class ConnectionRefusedError e then "ERROR: RC not connected"
               else "ERROR: " ++ exn_str e
           end
    /\ stdout_of (log w') = stdout_of (log w)
    /\ clock w' = S (clock w)
    /\ same_session w w'.
Proof.
  intros r w'. subst w'. unfold eval, exec, same_session.
  rewrite send_rc_command_run. fold r.
  cbn [fst snd log clock vlc_process current_file].
  eexists. eexists.
  split; [reflexivity|]. split; [|split; [reflexivity|split; [reflexivity|]]].
  - unfold rc_events, rc_diag. destruct r as [u|e]; [reflexivity|].
    destruct (is_class ConnectionRefusedError e); reflexivity.
  - split; [|repeat split].
    rewrite stdout_of_app, stdout_of_rc_events. apply app_nil_r.
Qed.

Lemma rc_token_run (H : host) (d : list (string * pyval)) (c : string) (w : world) :
  rc_token H d = Some c ->
  let r := rc_socket H (clock w) (c ++ LF) in
  exists fields,
    process_command H (PDict d) w =
    (Ok tt,
     World (if eq_str (dict_get d "command") "stop" then None else vlc_process w)
           (current_file w) (S (clock w))
           (log w ++ rc_events c r
            ++ (if eq_str (dict_get d "command") "stop"
                then terminate_events (vlc_process w) else [])
            ++ [EvStdout (PDict fields)]))
    /\ dict_get fields "rc_response" = PStr (rc_reply r)
    /\ dict_has fields "error" = false.
Proof.
  intros Ht r. unfold rc_token in Ht. cbv zeta in Ht.
  destruct (eq_str (dict_get d "command") "play_pause") eqn:H1.
  { injection Ht as <-. apply eq_str_true in H1.
    rewrite (process_command_play_pause_run H d w H1), H1.
    eexists. split; [reflexivity|]. split; reflexivity. }
  destruct (eq_str (dict_get d "command") "stop") eqn:H2.
  { injection Ht as <-. apply eq_str_true in H2.
    rewrite (process_command_stop_run H d w H2).
    eexists. split; [reflexivity|]. split; reflexivity. }
  destruct (eq_str (dict_get d "command") "set_subtitle") eqn:H3.
  { injection Ht as <-. apply eq_str_true in H3.
    rewrite (process_command_set_subtitle_run H d w H3).
    eexists. split; [reflexivity|]. split; reflexivity. }
  destruct (eq_str (dict_get d "command") "set_audio") eqn:H4; [|discriminate Ht].
  injection Ht as <-. apply eq_str_true in H4.
  rewrite (process_command_set_audio_run H d w H4).
  eexists. split; [reflexivity|]. split; reflexivity.
Qed.

Lemma terminated_app (l1 l2 : list event) :
  terminated (l1 ++ l2) = (terminated l1 ++ terminated l2)%list.
Proof.
  induction l1 as [|ev l1 IH]; [reflexivity|].
  destruct ev; simpl; rewrite IH; reflexivity.
Qed.

Lemma spawned_app (l1 l2 : list event) :
  spawned (l1 ++ l2) = (spawned l1 ++ spawned l2)%list.
Proof.
  induction l1 as [|ev l1 IH]; [reflexivity|].
  destruct ev as [| | argv [h|e] | | | | |]; simpl; rewrite IH; reflexivity.
Qed.

Lemma terminated_rc_events (c : string) (r : outcome unit) :
  terminated (rc_events c r) = [].
Proof.
  destruct r as [u|e]; [reflexivity|].
  unfold rc_events.
  destruct (is_class ConnectionRefusedError e); reflexivity.
Qed.

Lemma spawned_rc_events (c : string) (r : outcome unit) :
  spawned (rc_events c r) = [].
Proof.
  destruct r as [u|e]; [reflexivity|].
  unfold rc_events.
  destruct (is_class ConnectionRefusedError e); reflexivity.
Qed.







(** X10: a track id given as a string goes into the RC line as it is,
    unquoted and unescaped, line feeds included, and comes back
    unchanged as [id] in the result. *)
Theorem string_track_id_verbatim (H : host) (d : list (string * pyval)) (w : world)
        (name prefix status s : string) :
  In (name, prefix, status)
     [("set_subtitle", "sub_track ", "subtitle_set");
      ("set_audio", "audio_track ", "audio_set")] ->
  dict_get d "command" = PStr name ->
  dict_get d "track_id" = PStr s ->
  let w' := exec (process_command H (PDict d)) w in
  exists response,
    rc_of (log w') = (rc_of (log w) ++ [(prefix ++ s ++ LF)%string])%list
    /\ stdout_of (log w')
       = (stdout_of (log w)
          ++ [PDict [("status", PStr status); ("id", PStr s);
                     ("rc_response", PStr response)]])%list.
Proof.
  intros Hin Hc Hs w'. subst w'. unfold exec.
  rewrite (track_command_run H d w name prefix status Hin Hc), Hs.
  cbn [snd log py_str].
  eexists. split.
  - rewrite !rc_of_app, rc_of_rc_events. cbn [rc_of].
    rewrite app_nil_r, string_app_assoc. reflexivity.
  - rewrite !stdout_of_app, stdout_of_rc_events. reflexivity.
Qed.

Lemma string_track_id_verbatim_witness :
  let s := "1" ++ LF ++ "quit" in
  let w' := exec (process_command good_host (track_cmd "set_subtitle" (PStr s)))
                 initial_world in
  exists response,
    rc_of (log w') = [("sub_track 1" ++ LF ++ "quit" ++ LF)%string]
    /\ stdout_of (log w')
       = [PDict [("status", PStr "subtitle_set"); ("id", PStr s);
                 ("rc_response", PStr response)]].
Proof.
  apply (string_track_id_verbatim good_host
           [("command", PStr "set_subtitle"); ("track_id", PStr ("1" ++ LF ++ "quit"))]
           initial_world "set_subtitle" "sub_track " "subtitle_set"
           ("1" ++ LF ++ "quit")).
  - simpl. left. reflexivity.
  - reflexivity.
  - reflexivity.
Defined.

(** ** Handles across a run *)

Lemma terminated_teardown_events (H : host) (w : world) :
  terminated (teardown_events H w)
  = match vlc_process w with
    | Some h => [h]
    | None => []
    end.
Proof.
  unfold teardown_events. destruct (vlc_process w) as [h|]; [|reflexivity].
  cbv zeta. rewrite !terminated_app, terminated_rc_events.
  destruct (proc_wait H (S (clock w)) h 2000); reflexivity.
Qed.

Lemma spawned_teardown_events (H : host) (w : world) :
  spawned (teardown_events H w) = [].
Proof.
  unfold teardown_events. destruct (vlc_process w) as [h|]; [|reflexivity].
  cbv zeta. rewrite !spawned_app, spawned_rc_events.
  destruct (proc_wait H (S (clock w)) h 2000); reflexivity.
Qed.

Lemma rc_token_none (H : host) (d : list (string * pyval)) :
  rc_token H d = None ->
  eq_str (dict_get d "command") "load" = false ->
  known_command (dict_get d "command") = false.
Proof.
  unfold rc_token, known_command. cbv zeta. intros Ht Hl. rewrite Hl.
  destruct (eq_str (dict_get d "command") "play_pause"); [discriminate|].
  destruct (eq_str (dict_get d "command") "stop"); [discriminate|].
  destruct (eq_str (dict_get d "command") "set_subtitle"); [discriminate|].
  destruct (eq_str (dict_get d "command") "set_audio"); [discriminate|].
  reflexivity.
Qed.

Lemma handles_step_same (w w1 : world) (evs : list event) :
  log w1 = (log w ++ evs)%list ->
  terminated evs = [] ->
  spawned evs = [] ->
  vlc_process w1 = vlc_process w ->
  current_file w1 = current_file w ->
  handles_step w w1.
Proof.
  intros Hl Ht Hs Hp Hf. exists evs. split; [exact Hl|]. split; [|split].
  - rewrite Ht. intros h [].
  - intros h Hh. left. rewrite <- Hp. split; assumption.
  - rewrite Hs, Hp. intros h [[]|Hh]. right. exact Hh.
Qed.

Lemma launch_handles (H : host) (p : string) (w : world) :
  vlc_process w = None ->
  (forall h, In h (terminated (launch_events H p w)) ->
             In h (spawned (launch_events H p w)))
  /\ (forall h, vlc_process (exec (launch H p) w) = Some h ->
                In h (spawned (launch_events H p w)))
  /\ (forall h, In h (spawned (launch_events H p w)) ->
                In h (terminated (launch_events H p w))
                \/ vlc_process (exec (launch H p) w) = Some h).
Proof.
  intros Hn. unfold exec. rewrite launch_run. cbn [snd vlc_process].
  unfold launch_events. cbv zeta. rewrite Hn.
  destruct (popen H (clock w) (vlc_argv p)) as [h0|e].
  - destruct (proc_poll H (S (clock w)) h0) as [code|]; cbn.
    + split; [intros h Hh; exact Hh|].
      split; [intros h Hh; discriminate Hh|].
      intros h Hh. left. exact Hh.
    + split; [intros h []|].
      split; [intros h Hh; injection Hh as <-; left; reflexivity|].
      intros h [<-|[]]. right. reflexivity.
  - destruct (is_class FileNotFoundError e); cbn;
      (split; [intros h []|split; [intros h Hh; discriminate Hh|intros h []]]).
Qed.

(** Every dispatch is a [handles_step]. *)
Lemma process_command_handles (H : host) (v : pyval) (w : world) :
  handles_step w (exec (process_command H v) w).
Proof.
  unfold exec.
  destruct (is_dict v) eqn:Hv.
  2:{ rewrite (process_command_non_dict H v w Hv). cbn [snd].
      apply (handles_step_same w w []); try reflexivity.
      symmetry. apply app_nil_r. }
  destruct v as [| | | | | |d]; try discriminate Hv. clear Hv.
  destruct (eq_str (dict_get d "command") "load") eqn:Hl.
  - apply eq_str_true in Hl.
    destruct (truthy (dict_get d "file_path")) eqn:Hf.
    2:{ rewrite (process_command_load_missing_run H d w Hl Hf). cbn [snd].
        eapply handles_step_same; reflexivity. }
    destruct (is_str (dict_get d "file_path")) eqn:Hs.
    2:{ rewrite (process_command_load_run H d w Hl Hf), bind_run.
        destruct (dict_get d "file_path"); try discriminate Hs; cbn [Path snd];
          (apply (handles_step_same w w []); try reflexivity;
           symmetry; apply app_nil_r). }
    destruct (dict_get d "file_path") as [| | | |p| |] eqn:Hp; try discriminate Hs.
    assert (Hne : p <> "").
    { intros ->. discriminate Hf. }
    rewrite (process_command_load_str_run H d p w Hl Hp Hne).
    destruct (teardown_returns H w) eqn:Ht.
    + set (wm := World None (Some p) (clock_after_teardown w)
                       (log w ++ teardown_events H w)).
      destruct (launch_handles H p wm eq_refl) as (Hterm & Htrack & Hkeep).
      fold (exec (launch H p) wm).
      exists (teardown_events H w ++ launch_events H p wm)%list.
      split; [|split; [|split]].
      * unfold exec. rewrite launch_run. cbn [snd log]. subst wm. cbn [log].
        rewrite app_assoc. reflexivity.
      * intros h Hh. rewrite terminated_app, terminated_teardown_events in Hh.
        apply in_app_or in Hh. destruct Hh as [Hh|Hh].
        -- left. destruct (vlc_process w) as [h0|]; [|destruct Hh].
           destruct Hh as [->|[]]. reflexivity.
        -- right. rewrite spawned_app. apply in_or_app. right. apply Hterm, Hh.
      * intros h Hh. right. split.
        -- rewrite spawned_app. apply in_or_app. right. apply Htrack, Hh.
        -- unfold exec. rewrite launch_run. cbn [snd current_file]. discriminate.
      * intros h Hh. rewrite terminated_app, terminated_teardown_events.
        rewrite spawned_app, spawned_teardown_events in Hh. cbn [app] in Hh.
        destruct Hh as [Hh|Hh].
        -- destruct (Hkeep h Hh) as [Hk|Hk]; [left|right; exact Hk].
           apply in_or_app. right. exact Hk.
        -- left. apply in_or_app. left. rewrite Hh. left. reflexivity.
    + cbn [snd].
      exists (teardown_events H w). split; [reflexivity|]. split; [|split].
      * intros h Hh. rewrite terminated_teardown_events in Hh. left.
        destruct (vlc_process w) as [h0|]; [|destruct Hh].
        destruct Hh as [->|[]]. reflexivity.
      * intros h Hh. left. cbn [vlc_process current_file] in *.
        split; [exact Hh|reflexivity].
      * rewrite spawned_teardown_events. cbn [vlc_process].
        intros h [[]|Hh]. right. exact Hh.
  - destruct (rc_token H d) as [c|] eqn:Ht.
    + destruct (rc_token_run H d c w Ht) as (fields & Hrun & _ & _).
      rewrite Hrun. cbn [snd]. eexists. split; [reflexivity|].
      cbn [vlc_process current_file]. split; [|split].
      * intros h Hh. left.
        rewrite !terminated_app, terminated_rc_events in Hh. cbn [app] in Hh.
        destruct (eq_str (dict_get d "command") "stop"); [|destruct Hh].
        destruct (vlc_process w) as [h0|]; [|destruct Hh].
        cbn in Hh. destruct Hh as [->|[]]. reflexivity.
      * intros h Hh. left.
        destruct (eq_str (dict_get d "command") "stop"); [discriminate Hh|].
        split; [exact Hh|reflexivity].
      * intros h Hh.
        rewrite !spawned_app, spawned_rc_events in Hh.
        rewrite !terminated_app, terminated_rc_events. cbn [app] in *.
        destruct (eq_str (dict_get d "command") "stop").
        -- destruct (vlc_process w) as [h0|]; cbn in *.
           ++ destruct Hh as [[]|Hh]. injection Hh as <-. left. left. reflexivity.
           ++ destruct Hh as [[]|Hh]. discriminate Hh.
        -- cbn in Hh. destruct Hh as [[]|Hh]. right. exact Hh.
    + rewrite (process_command_unknown_run H d w (rc_token_none H d Ht Hl)).
      cbn [snd]. eapply handles_step_same; reflexivity.
Qed.

Lemma main_step_handles (H : host) (ln : input_line) (w : world) :
  handles_step w (exec (main_step H ln) w).
Proof.
  destruct ln as [v|msg].
  - pose proof (process_command_handles H v w) as Hs.
    unfold exec in *. rewrite main_step_decoded.
    destruct (process_command H v w) as [[a|e] w1]; cbn [snd] in *; [exact Hs|].
    destruct Hs as (evs & Hl & Ht & Hp & Hk).
    exists (evs ++ [EvStderr (if is_class JSONDecodeError e
                              then "Error decoding JSON: " ++ exn_str e
                              else "Unhandled error in main loop: " ++ exn_str e)])%list.
    cbn [log vlc_process current_file].
    rewrite terminated_app, spawned_app. cbn [terminated spawned].
    rewrite !app_nil_r.
    split; [|split; [|split]]; [|exact Ht|exact Hp|exact Hk].
    rewrite Hl, app_assoc. reflexivity.
  - apply (handles_step_same w _ [EvStderr ("Error decoding JSON: " ++ msg)]);
      reflexivity.
Qed.

Lemma handles_step_own (w w1 : world) :
  handles_step w w1 -> own_processes w -> own_processes w1.
Proof.
  intros (evs & Hl & Ht & Hp & _) [Htr Hte]. unfold own_processes. rewrite Hl.
  split.
  - intros h Hh. rewrite spawned_app. apply in_or_app.
    destruct (Hp h Hh) as [[Hw _]|[Hs _]]; [left; apply Htr, Hw|right; exact Hs].
  - intros h Hh. rewrite terminated_app in Hh. rewrite spawned_app.
    apply in_or_app. apply in_app_or in Hh. destruct Hh as [Hh|Hh].
    + left. apply Hte, Hh.
    + destruct (Ht h Hh) as [Hw|Hs]; [left; apply Htr, Hw|right; exact Hs].
Qed.

Lemma handles_step_path (w w1 : world) :
  handles_step w w1 -> tracked_has_path w = true -> tracked_has_path w1 = true.
Proof.
  intros (evs & _ & _ & Hp & _) Hw. unfold tracked_has_path in *.
  destruct (vlc_process w1) as [h|] eqn:Hh; [|reflexivity].
  destruct (Hp h eq_refl) as [[Hv Hf]|[_ Hf]].
  - rewrite Hf. rewrite Hv in Hw. exact Hw.
  - destruct (current_file w1); [reflexivity|contradiction].
Qed.

Lemma handles_step_lost (w w1 : world) :
  handles_step w w1 -> no_lost_process w -> no_lost_process w1.
Proof.
  intros (evs & Hl & _ & _ & Hk) Hw h Hh. rewrite Hl in *.
  rewrite terminated_app. rewrite spawned_app in Hh.
  apply in_app_or in Hh. destruct Hh as [Hh|Hh].
  - destruct (Hw h Hh) as [Ht|Hv].
    + left. apply in_or_app. left. exact Ht.
    + destruct (Hk h (or_intror Hv)) as [Ht|Hv1]; [left|right; exact Hv1].
      apply in_or_app. right. exact Ht.
  - destruct (Hk h (or_introl Hh)) as [Ht|Hv1]; [left|right; exact Hv1].
    apply in_or_app. right. exact Ht.
Qed.

Lemma main_loop_nil (H : host) (w : world) : exec (main_loop H []) w = w.
Proof. reflexivity. Qed.

Lemma exec_main_loop_cons (H : host) (ln : input_line) (rest : list input_line)
      (w : world) :
  exec (main_loop H (ln :: rest)) w
  = exec (main_loop H rest) (exec (main_step H ln) w).
Proof.
  unfold exec at 1. rewrite main_loop_cons. reflexivity.
Qed.

Lemma exec_main (H : host) (lines : list input_line) (w : world) :
  exec (main H lines) w
  = exec (main_loop H lines)
         (World (vlc_process w) (current_file w) (clock w)
                (log w ++ [EvStderr "External VLC RC control initialized successfully"])).
Proof. reflexivity. Qed.

(** X11: the program only ever tracks, and only ever asks to
    terminate, processes it spawned itself: this holds of the world
    after any run of [main] on any input, on any host, if it held
    before, as it does at program start. *)
Theorem only_own_processes (H : host) (lines : list input_line) (w : world) :
  own_processes w ->
  own_processes (exec (main H lines) w).
Proof.
  intros Hw. rewrite exec_main.
  assert (Hw0 : own_processes
                  (World (vlc_process w) (current_file w) (clock w)
                         (log w ++ [EvStderr "External VLC RC control initialized successfully"]))).
  { apply (handles_step_own w); [|exact Hw].
    eapply handles_step_same; reflexivity. }
  revert Hw0.
  generalize (World (vlc_process w) (current_file w) (clock w)
                    (log w ++ [EvStderr "External VLC RC control initialized successfully"])).
  induction lines as [|ln rest IH]; intros w0 Hw0; [exact Hw0|].
  rewrite exec_main_loop_cons. apply IH.
  apply (handles_step_own w0); [apply main_step_handles|exact Hw0].
Qed.

Lemma only_own_processes_witness :
  own_processes
    (exec (main good_host [Decoded (load_cmd (PStr "a.mkv"));
                           Decoded (load_cmd (PStr "b.mkv"));
                           Decoded (cmd "stop")])
          initial_world).
Proof.
  apply (only_own_processes good_host
           [Decoded (load_cmd (PStr "a.mkv")); Decoded (load_cmd (PStr "b.mkv"));
            Decoded (cmd "stop")]
           initial_world).
  split; [intros h Hh; discriminate Hh|intros h []].
Defined.

(** X12: whenever a process is tracked a media path is recorded: this
    holds of the world after any run of [main] on any input, on any
    host, if it held before, as it does at program start. *)
Theorem tracked_process_has_path (H : host) (lines : list input_line) (w : world) :
  tracked_has_path w = true ->
  tracked_has_path (exec (main H lines) w) = true.
Proof.
  intros Hw. rewrite exec_main.
  assert (Hw0 : tracked_has_path
                  (World (vlc_process w) (current_file w) (clock w)
                         (log w ++ [EvStderr "External VLC RC control initialized successfully"]))
                = true) by exact Hw.
  revert Hw0.
  generalize (World (vlc_process w) (current_file w) (clock w)
                    (log w ++ [EvStderr "External VLC RC control initialized successfully"])).
  induction lines as [|ln rest IH]; intros w0 Hw0; [exact Hw0|].
  rewrite exec_main_loop_cons. apply IH.
  apply (handles_step_path w0); [apply main_step_handles|exact Hw0].
Qed.

Lemma tracked_process_has_path_witness :
  tracked_has_path
    (exec (main stuck_host [Decoded (load_cmd (PStr "a.mkv"));
                            Decoded (load_cmd (PStr "b.mkv"));
                            Decoded (cmd "stop")])
          initial_world) = true.
Proof.
  apply (tracked_process_has_path stuck_host
           [Decoded (load_cmd (PStr "a.mkv")); Decoded (load_cmd (PStr "b.mkv"));
            Decoded (cmd "stop")]
           initial_world).
  reflexivity.
Defined.

(** X18: no process is lost track of: after any run of [main] on any
    input, on any host, every process the program spawned is the
    tracked one or has been asked to terminate, if that held before, as
    it does at program start. *)
Theorem no_process_lost (H : host) (lines : list input_line) (w : world) :
  no_lost_process w ->
  no_lost_process (exec (main H lines) w).
Proof.
  intros Hw. rewrite exec_main.
  assert (Hw0 : no_lost_process
                  (World (vlc_process w) (current_file w) (clock w)
                         (log w ++ [EvStderr "External VLC RC control initialized successfully"]))).
  { apply (handles_step_lost w); [|exact Hw].
    eapply handles_step_same; reflexivity. }
  revert Hw0.
  generalize (World (vlc_process w) (current_file w) (clock w)
                    (log w ++ [EvStderr "External VLC RC control initialized successfully"])).
  induction lines as [|ln rest IH]; intros w0 Hw0; [exact Hw0|].
  rewrite exec_main_loop_cons. apply IH.
  apply (handles_step_lost w0); [apply main_step_handles|exact Hw0].
Qed.

Lemma no_process_lost_witness :
  no_lost_process
    (exec (main good_host [Decoded (load_cmd (PStr "a.mkv"));
                           Decoded (load_cmd (PStr "b.mkv"));
                           Decoded (cmd "play_pause")])
          initial_world).
Proof.
  apply (no_process_lost good_host
           [Decoded (load_cmd (PStr "a.mkv")); Decoded (load_cmd (PStr "b.mkv"));
            Decoded (cmd "play_pause")]
           initial_world).
  intros h [].
Defined.

(** ** The loop as a whole *)


Lemma main_step_stdout (H : host) (ln : input_line) (w : world) :
  exists out,
    stdout_of (log (exec (main_step H ln) w)) = (stdout_of (log w) ++ out)%list
    /\ length out <= (if is_decoded ln then 1 else 0).
Proof.
  destruct ln as [v|msg].
  - pose proof (process_command_stdout H v w) as Hs.
    unfold exec. rewrite main_step_decoded.
    destruct (process_command H v w) as [[a|e] w1]; cbn [snd log is_decoded].
    + destruct Hs as [obj Ho]. exists [obj]. split; [exact Ho|]. cbn. lia.
    + exists []. split; [|cbn; lia].
      rewrite stdout_of_app, Hs. cbn. reflexivity.
  - exists []. split; [|cbn; lia].
    change (exec (main_step H (Undecodable msg)) w)
      with (World (vlc_process w) (current_file w) (clock w)
                  (log w ++ [EvStderr ("Error decoding JSON: " ++ msg)])).
    cbn [log]. rewrite stdout_of_app. reflexivity.
Qed.


(** X14: a run writes at most one result line per line that decodes,
    and none for the others: the results of [main] on any input extend
    those already written by at most as many lines as the input has
    decodable lines. *)
Theorem at_most_one_result_per_line (H : host) (lines : list input_line) (w : world) :
  exists out,
    stdout_of (log (exec (main H lines) w)) = (stdout_of (log w) ++ out)%list
    /\ length out <= length (filter is_decoded lines).
Proof.
  rewrite exec_main.
  assert (Hloop : forall ls w0, exists out,
               stdout_of (log (exec (main_loop H ls) w0)) = (stdout_of (log w0) ++ out)%list
               /\ length out <= length (filter is_decoded ls)).
  { induction ls as [|ln rest IH]; intros w0.
    - exists []. split; [symmetry; apply app_nil_r|cbn; lia].
    - rewrite exec_main_loop_cons.
      destruct (main_step_stdout H ln w0) as (o1 & H1 & L1).
      destruct (IH (exec (main_step H ln) w0)) as (o2 & H2 & L2).
      exists (o1 ++ o2)%list. split.
      + rewrite H2, H1, app_assoc. reflexivity.
      + rewrite length_app. cbn [filter].
        destruct (is_decoded ln); cbn [length]; lia. }
  destruct (Hloop lines
              (World (vlc_process w) (current_file w) (clock w)
                     (log w ++ [EvStderr "External VLC RC control initialized successfully"])))
    as (out & Hout & Hlen).
  exists out. split; [|exact Hlen].
  rewrite Hout. cbn [log]. rewrite stdout_of_app. cbn. rewrite app_nil_r. reflexivity.
Qed.



(** X17: [stop] after a [load] that started a player asks that very
    player to terminate; afterwards no process is tracked and the path
    of the load is still recorded. *)
Theorem load_then_stop (H : host) (d1 d2 : list (string * pyval)) (p : string)
        (w : world) (h : handle) :
  dict_get d1 "command" = PStr "load" ->
  dict_get d1 "file_path" = PStr p ->
  p <> "" ->
  teardown_returns H w = true ->
  popen H (clock_after_teardown w) (vlc_argv p) = Ok h ->
  proc_poll H (S (clock_after_teardown w)) h = None ->
  dict_get d2 "command" = PStr "stop" ->
  let w1 := exec (process_command H (PDict d1)) w in
  let w2 := exec (process_command H (PDict d2)) w1 in
  vlc_process w1 = Some h
  /\ terminated (log w2) = (terminated (log w1) ++ [h])%list
  /\ spawns_of (log w2) = spawns_of (log w1)
  /\ vlc_process w2 = None
  /\ current_file w2 = Some p
  /\ exec (main_loop H [Decoded (PDict d1); Decoded (PDict d2)]) w = w2.
Proof.
  intros Hc Hp Hne Ht Hpo Hpl Hs w1 w2.
  assert (Hw1 : vlc_process w1 = Some h /\ current_file w1 = Some p
                /\ eval (process_command H (PDict d1)) w = Ok tt).
  { subst w1. unfold exec, eval.
    rewrite (process_command_load_str_run H d1 p w Hc Hp Hne), Ht, launch_run.
    cbn [fst snd clock vlc_process current_file]. rewrite Hpo, Hpl.
    repeat split. }
  destruct Hw1 as (Hh & Hf & Hr).
  assert (Hloop : exec (main_loop H [Decoded (PDict d1); Decoded (PDict d2)]) w = w2).
  { rewrite !exec_main_loop_cons, main_loop_nil.
    assert (H1 : exec (main_step H (Decoded (PDict d1))) w = w1).
    { subst w1. unfold exec, eval in *. rewrite main_step_decoded.
      destruct (process_command H (PDict d1) w) as [r0 w0]. cbn [fst] in Hr.
      rewrite Hr. reflexivity. }
    rewrite H1. subst w2. unfold exec. rewrite main_step_decoded.
    rewrite (process_command_stop_run H d2 w1 Hs). reflexivity. }
  split; [exact Hh|]. subst w2. unfold exec in *.
  rewrite (process_command_stop_run H d2 w1 Hs) in *.
  cbn [snd log vlc_process current_file] in *.
  split; [|split; [|split; [reflexivity|split; [exact Hf|exact Hloop]]]].
  - rewrite Hh, !terminated_app, terminated_rc_events. reflexivity.
  - rewrite Hh, !spawns_of_app, spawns_of_rc_events. cbn. apply app_nil_r.
Qed.

Lemma load_then_stop_witness :
  let w1 := exec (process_command good_host (load_cmd (PStr "a.mkv"))) initial_world in
  let w2 := exec (process_command good_host (cmd "stop")) w1 in
  vlc_process w1 = Some 100
  /\ terminated (log w2) = (terminated (log w1) ++ [100])%list
  /\ spawns_of (log w2) = spawns_of (log w1)
  /\ vlc_process w2 = None
  /\ current_file w2 = Some "a.mkv"
  /\ exec (main_loop good_host [Decoded (load_cmd (PStr "a.mkv")); Decoded (cmd "stop")])
          initial_world = w2.
Proof.
  apply (load_then_stop good_host
           [("command", PStr "load"); ("file_path", PStr "a.mkv")]
           [("command", PStr "stop")] "a.mkv" initial_world 100);
    try reflexivity.
  discriminate.
Defined.
